(** * Weather lookup service: a shallow embedding of [app/main.py]

    The service resolves a city name to coordinates, asks the Open-Meteo
    forecast endpoint for the current weather, stores one row per successful
    lookup and serves the stored rows newest first.  This file embeds the
    request path of [app/main.py] (with the row type of [app/models.py]) and
    proves the properties its specification states about it.

    Python text is a list of Unicode code points, JSON values are a tagged
    union, exceptions are values of an error monad, and everything outside
    the process (the HTTP provider, the clock, the storage engine, the part
    of the Unicode case table the service's keys never touch) is an oracle
    collected in [Env]. *)

From Stdlib Require Import ZArith NArith List Bool Lia Floats String Ascii.
From Stdlib Require Import Permutation Sorted.
Import ListNotations.

Set Implicit Arguments.
Set Warnings "-register-all,-inexact-float".
Local Open Scope Z_scope.

(* ===================================================================== *)
(** ** Python text *)
(* ===================================================================== *)

Module Text.

(** A Python [str]: its code points, in order. *)
Definition pystr := list N.

Fixpoint eqb (s t : pystr) : bool :=
  match s, t with
  | [], [] => true
  | c :: s', d :: t' => N.eqb c d && eqb s' t'
  | _, _ => false
  end.

(** The source file is UTF-8; [utf8] reads a literal of this file the way
    Python reads a literal of the source, as code points. *)
Fixpoint decode (bs : list N) : pystr :=
  (match bs with
   | [] => []
   | b0 :: r0 =>
       if b0 <? 128 then b0 :: decode r0
       else if b0 <? 224 then
         match r0 with
         | b1 :: r1 => ((b0 - 192) * 64 + (b1 - 128)) :: decode r1
         | _ => []
         end
       else if b0 <? 240 then
         match r0 with
         | b1 :: b2 :: r2 =>
             ((b0 - 224) * 4096 + (b1 - 128) * 64 + (b2 - 128)) :: decode r2
         | _ => []
         end
       else
         match r0 with
         | b1 :: b2 :: b3 :: r3 =>
             ((b0 - 240) * 262144 + (b1 - 128) * 4096
              + (b2 - 128) * 64 + (b3 - 128)) :: decode r3
         | _ => []
         end
   end)%N.

Definition utf8 (s : string) : pystr :=
  decode (map N_of_ascii (list_ascii_of_string s)).

(** [str.isspace] on one code point, the set [str.strip()] removes:
    the characters CPython's [_PyUnicode_IsWhitespace] accepts. *)
Definition is_space (c : N) : bool :=
  ((9 <=? c) && (c <=? 13) || (28 <=? c) && (c <=? 32)
   || (c =? 133) || (c =? 160) || (c =? 5760)
   || (8192 <=? c) && (c <=? 8202)
   || (c =? 8232) || (c =? 8233) || (c =? 8239) || (c =? 8287)
   || (c =? 12288))%N.

Fixpoint lstrip (s : pystr) : pystr :=
  match s with
  | c :: s' => if is_space c then lstrip s' else s
  | [] => []
  end.

Definition rstrip (s : pystr) : pystr := rev (lstrip (rev s)).

(** [s.strip()] *)
Definition strip (s : pystr) : pystr := rstrip (lstrip s).

Section Lower.

(** The Unicode lower-case mapping of the code points outside the
    blocks written out below (Basic Latin, Cyrillic, white space): a
    property of the interpreter's Unicode database, not of the service. *)
Variable unicode_lower : N -> pystr.

(** [str.lower] on one code point.  Basic Latin and the Cyrillic block
    U+0400..U+045F are the scripts of the service's city keys. *)
Definition lower_cp (c : N) : pystr :=
  (if is_space c then [c]
   else if c <? 128 then
     if (65 <=? c) && (c <=? 90) then [c + 32] else [c]
   else if (1024 <=? c) && (c <=? 1039) then [c + 80]
   else if (1040 <=? c) && (c <=? 1071) then [c + 32]
   else if (1072 <=? c) && (c <=? 1119) then [c]
   else unicode_lower c)%N.

(** [s.lower()].  The mapping is code point by code point; the one rule
    of [str.lower] that looks at the neighbours, the final form of the
    Greek capital sigma, is left to [unicode_lower] as either form. *)
Definition lower (s : pystr) : pystr := flat_map lower_cp s.

End Lower.

(** [needle in haystack] for two strings: substring search. *)
Fixpoint is_prefix (p s : pystr) : bool :=
  match p, s with
  | [], _ => true
  | c :: p', d :: s' => N.eqb c d && is_prefix p' s'
  | _ :: _, [] => false
  end.

Fixpoint is_substring (p s : pystr) : bool :=
  is_prefix p s ||
  match s with
  | [] => false
  | _ :: s' => is_substring p s'
  end.

End Text.

Import Text.

(* ===================================================================== *)
(** ** Values and exceptions *)
(* ===================================================================== *)

(** What [json.loads] produces: [None], [bool], [int], [float], [str],
    [list], and [dict] (its items, each key once). *)
Inductive json : Type :=
| JNull
| JBool (b : bool)
| JInt (z : Z)
| JFloat (f : float)
| JStr (s : pystr)
| JArr (items : list json)
| JObj (fields : list (pystr * json)).

(** The subclasses of [requests.exceptions.RequestException] the client can
    meet.  [JSONDecodeError] is the one [Response.json] raises; it derives
    from [RequestException] (requests 2.27 and later). *)
Inductive request_exception : Type :=
| ConnectionError
| Timeout
| HTTPError (status : Z)
| JSONDecodeError.

Inductive exn : Type :=
| RequestException (e : request_exception)
| KeyError (key : json)
| IndexError
| TypeError
| OverflowError
| SQLAlchemyError
| HTTPException (status_code : Z) (detail : string) (cause : option exn).

(** The outcome of a Python expression: a value, or a raised exception. *)
Inductive result (A : Type) : Type :=
| Ok (a : A)
| Raise (e : exn).
Arguments Ok {A} a.
Arguments Raise {A} e.

Definition is_ok {A} (r : result A) : bool :=
  match r with Ok _ => true | Raise _ => false end.

Definition and_then {A B} (r : result A) (k : A -> result B) : result B :=
  match r with
  | Ok a => k a
  | Raise e => Raise e
  end.

Declare Scope result_scope.
Delimit Scope result_scope with result.
Notation "'let*' x := r 'in' k" := (and_then r (fun x => k))
  (at level 10, x name, r at level 100, k at level 200) : result_scope.

Module Py.

Fixpoint assoc {V} (k : pystr) (d : list (pystr * V)) : option V :=
  match d with
  | [] => None
  | (k', v) :: d' => if Text.eqb k k' then Some v else assoc k d'
  end.

(** [bool(v)] *)
Definition truthy (v : json) : bool :=
  match v with
  | JNull => false
  | JBool b => b
  | JInt z => negb (z =? 0)
  | JFloat f => negb (PrimFloat.eqb f 0%float)
  | JStr s => match s with [] => false | _ => true end
  | JArr l => match l with [] => false | _ => true end
  | JObj d => match d with [] => false | _ => true end
  end.

(** [a or b] *)
Definition or_ (a b : json) : json := if truthy a then a else b.

(** [v[key]] with a string key. *)
Definition getitem (v : json) (key : pystr) : result json :=
  match v with
  | JObj d =>
      match assoc key d with
      | Some x => Ok x
      | None => Raise (KeyError (JStr key))
      end
  | _ => Raise TypeError
  end.

(** [v[0]] *)
Definition getitem0 (v : json) : result json :=
  match v with
  | JArr (x :: _) => Ok x
  | JArr [] => Raise IndexError
  | JStr (c :: _) => Ok (JStr [c])
  | JStr [] => Raise IndexError
  | JObj _ => Raise (KeyError (JInt 0))
  | _ => Raise TypeError
  end.

Definition str_eq (key : pystr) (v : json) : bool :=
  match v with JStr s => Text.eqb key s | _ => false end.

(** [key in v] with a string key. *)
Definition contains (key : pystr) (v : json) : result bool :=
  match v with
  | JObj d => Ok (match assoc key d with Some _ => true | None => false end)
  | JArr l => Ok (existsb (str_eq key) l)
  | JStr s => Ok (Text.is_substring key s)
  | _ => Raise TypeError
  end.

(** The integer a hashable value is equal to, if any: [True == 1],
    [3.0 == 3]; a dict with [int] keys finds its entry through it. *)
Definition float_is_int (f : float) (k : Z) : bool :=
  if (0 <=? k) && (k <? 9007199254740992)
  then PrimFloat.eqb f (PrimFloat.of_uint63 (Uint63.of_Z k))
  else false.

Definition eq_int (v : json) (k : Z) : bool :=
  match v with
  | JBool b => (if b then 1 else 0) =? k
  | JInt z => z =? k
  | JFloat f => float_is_int f k
  | _ => false
  end.

Definition hashable (v : json) : bool :=
  match v with
  | JArr _ | JObj _ => false
  | _ => true
  end.

(** [d.get(v)] on a dict whose keys are [int]s from 0 to 2^53 - 1, each
    exactly a float. *)
Fixpoint get_int {V} (d : list (Z * V)) (v : json) : option V :=
  match d with
  | [] => None
  | (k, x) :: d' => if eq_int v k then Some x else get_int d' v
  end.

(** [float(z)] for an [int]: the nearest float, ties to even; nothing
    when the result would pass the largest float ([OverflowError]). *)
Definition float_of_int (z : Z) : option float :=
  let f := SF2Prim (binary_normalize prec emax z 0 false) in
  if PrimFloat.is_infinity f then None else Some f.

(** [d.get(v, default)]: hashing [v] comes first. *)
Definition get {V} (d : list (Z * V)) (v : json) (default : V) : result V :=
  if hashable v then
    Ok (match get_int d v with Some x => x | None => default end)
  else Raise TypeError.

End Py.

(* ===================================================================== *)
(** ** Static reference data *)
(* ===================================================================== *)

Local Open Scope string_scope.
Local Open Scope list_scope.
Local Open Scope Z_scope.

(** A coordinate dict [{"lat": ..., "lon": ...}]. *)
Record Coordinates : Type := { lat : float; lon : float }.

(** [CITY_COORDINATES], in source order. *)
Definition CITY_COORDINATES : list (pystr * Coordinates) :=
  [ (utf8 "moscow", {| lat := 55.7558; lon := 37.6173 |});
    (utf8 "london", {| lat := 51.5074; lon := -0.1278 |});
    (utf8 "new york", {| lat := 40.7128; lon := -74.0060 |});
    (utf8 "tokyo", {| lat := 35.6762; lon := 139.6503 |});
    (utf8 "paris", {| lat := 48.8566; lon := 2.3522 |});
    (utf8 "berlin", {| lat := 52.5200; lon := 13.4050 |});
    (utf8 "киев", {| lat := 50.4501; lon := 30.5234 |});
    (utf8 "санкт-петербург", {| lat := 59.9343; lon := 30.3351 |});
    (utf8 "сочи", {| lat := 43.5855; lon := 39.7231 |});
    (utf8 "казань", {| lat := 55.7961; lon := 49.1064 |}) ].

(** [WEATHER_CODES], in source order. *)
Definition WEATHER_CODES : list (Z * pystr) :=
  [ (0, utf8 "Ясно");
    (1, utf8 "В основном ясно");
    (2, utf8 "Переменная облачность");
    (3, utf8 "Пасмурно");
    (45, utf8 "Туман");
    (48, utf8 "Изморозь");
    (51, utf8 "Легкая морось");
    (53, utf8 "Умеренная морось");
    (55, utf8 "Сильная морось");
    (56, utf8 "Легкая ледяная морось");
    (57, utf8 "Сильная ледяная морось");
    (61, utf8 "Небольшой дождь");
    (63, utf8 "Умеренный дождь");
    (65, utf8 "Сильный дождь");
    (66, utf8 "Легкий ледяной дождь");
    (67, utf8 "Сильный ледяной дождь");
    (71, utf8 "Небольшой снег");
    (73, utf8 "Умеренный снег");
    (75, utf8 "Сильный снег");
    (77, utf8 "Снежные зерна");
    (80, utf8 "Небольшие ливни");
    (81, utf8 "Умеренные ливни");
    (82, utf8 "Сильные ливни");
    (85, utf8 "Небольшие снегопады");
    (86, utf8 "Сильные снегопады");
    (95, utf8 "Гроза");
    (96, utf8 "Гроза с небольшим градом");
    (99, utf8 "Гроза с сильным градом") ].

Definition OPENMETEO_URL : string := "https://api.open-meteo.com/v1/forecast".

(* ===================================================================== *)
(** ** Coordinate resolver *)
(* ===================================================================== *)

(** [key in d] and [d[key]] on a dict with string keys. *)
Definition dict_contains {V} (d : list (pystr * V)) (key : pystr) : bool :=
  match Py.assoc key d with Some _ => true | None => false end.

Definition dict_getitem {V} (d : list (pystr * V)) (key : pystr) : result V :=
  match Py.assoc key d with
  | Some v => Ok v
  | None => Raise (KeyError (JStr key))
  end.

(** The pair returned for a city that is not in the table. *)
Definition default_coordinates : Coordinates :=
  {| lat := 55.7558; lon := 37.6173 |}.

Section Resolver.

Variable unicode_lower : N -> pystr.

(** [get_city_coordinates(city)] *)
Definition get_city_coordinates (city : pystr) : result Coordinates :=
  let city_lower := strip (lower unicode_lower city) in
  if dict_contains CITY_COORDINATES city_lower then
    dict_getitem CITY_COORDINATES city_lower
  else
    Ok default_coordinates.

End Resolver.

(* ===================================================================== *)
(** ** The world outside the process *)
(* ===================================================================== *)

(** The query string of the forecast request. *)
Record forecast_params : Type := {
  latitude : float;
  longitude : float;
  current_weather : bool;
  hourly : string;
  timezone : string;
  forecast_days : Z
}.

(** One [requests.get(url, params=..., timeout=...)]. *)
Record http_request : Type := {
  url : string;
  params : option forecast_params;
  timeout : Z
}.

(** What one GET comes to: [requests.get] raises, or a response arrives with
    a status code and a body that is JSON text or is not. *)
Inductive upstream_outcome : Type :=
| Fails (e : request_exception)
| Responds (status_code : Z) (body : option json).

Record Response : Type := { status_code : Z; body : option json }.

Module models.

(** [models.WeatherRequest], a row of [weather_requests].  The numeric
    columns hold what the handler passed, [JNull] for SQL NULL; the
    timestamp is in microseconds of UTC. *)
Record WeatherRequest : Type := {
  id : Z;
  city : pystr;
  temperature : json;
  humidity : json;
  description : pystr;
  windspeed : json;
  winddirection : json;
  weathercode : json;
  timestamp : Z
}.

End models.

(** The two Prometheus metrics, as the sequence of updates they received:
    [REQUEST_COUNT.labels(status=s).inc()] and [REQUEST_LATENCY.observe(x)]. *)
Inductive metric_event : Type :=
| CounterInc (status : string)
| HistogramObserve (latency : float).

(** The columns of [models.py] that do not hold text. *)
Inductive column_type : Type :=
| FloatColumn
| IntegerColumn.

(** The integers the storage binds are 64-bit: a parameter from [2^63] on
    is refused. *)
Definition int64_limit : Z := 2 ^ 63.

(** Everything the service does not decide. *)
Record Env : Type := {
  (** the Unicode case table outside Basic Latin and Cyrillic *)
  unicode_lower : N -> pystr;
  (** [os.getenv("WEATHER_API_PROVIDER", "openmeteo")] *)
  WEATHER_API_PROVIDER : string;
  (** how far the wall clock moves during the k-th external operation *)
  elapse : nat -> Z;
  (** [time.time()] when the wall clock shows the given microsecond *)
  time_time : Z -> float;
  (** the outcome of the k-th external operation when it is this GET *)
  http_get : nat -> http_request -> upstream_outcome;
  (** whether the k-th external operation, a storage call, fails *)
  storage_fault : nat -> bool;
  (** the key the engine gives the next row of the table *)
  next_id : list models.WeatherRequest -> Z;
  (** whether, for a query with the given OFFSET and LIMIT, the engine
      lists the first of two rows of equal timestamp before the second:
      the order among such rows is the engine's choice and may differ from
      query to query *)
  tie_order :
    Z -> Z -> models.WeatherRequest -> models.WeatherRequest -> bool;
  (** [float(s)] for a string: the float it spells, if any *)
  float_of_str : pystr -> option float;
  (** what a column reads back for a value the engine does not keep as
      bound: NaN in a [Float] column, a float or a string in an [Integer]
      column (SQLite converts by type affinity, PostgreSQL casts or
      rejects); nothing when the engine rejects the value *)
  engine_cast : column_type -> json -> option json;
  (** what the engine does with a negative OFFSET or LIMIT (SQLite reads a
      negative LIMIT as none, PostgreSQL rejects it) *)
  negative_window :
    Z -> Z -> list models.WeatherRequest -> result (list models.WeatherRequest)
}.

(** The state the requests share. *)
Record World : Type := {
  now : Z;                                  (* wall clock, microseconds *)
  steps : nat;                              (* external operations so far *)
  http_log : list http_request;             (* GETs issued, oldest first *)
  table : list models.WeatherRequest;       (* stored rows, oldest first *)
  metrics : list metric_event               (* metric updates, oldest first *)
}.

(* ===================================================================== *)
(** ** A state and exception monad *)
(* ===================================================================== *)

(** The four ways the service changes the world. *)
Definition advance (dt : Z) (w : World) : World :=
  {| now := now w + dt; steps := S (steps w); http_log := http_log w;
     table := table w; metrics := metrics w |}.

Definition log_request (req : http_request) (w : World) : World :=
  {| now := now w; steps := steps w; http_log := http_log w ++ [req];
     table := table w; metrics := metrics w |}.

Definition store (row : models.WeatherRequest) (w : World) : World :=
  {| now := now w; steps := steps w; http_log := http_log w;
     table := table w ++ [row]; metrics := metrics w |}.

Definition note (ev : metric_event) (w : World) : World :=
  {| now := now w; steps := steps w; http_log := http_log w;
     table := table w; metrics := metrics w ++ [ev] |}.

Definition M (A : Type) : Type := World -> result A * World.

Definition ret {A} (a : A) : M A := fun w => (Ok a, w).

Definition raise {A} (e : exn) : M A := fun w => (Raise e, w).

Definition bind {A B} (m : M A) (k : A -> M B) : M B :=
  fun w =>
    match m w with
    | (Ok a, w') => k a w'
    | (Raise e, w') => (Raise e, w')
    end.

Definition lift {A} (r : result A) : M A := fun w => (r, w).

(** [try: m  except Exception as e: h e] *)
Definition try_except {A} (m : M A) (h : exn -> M A) : M A :=
  fun w =>
    match m w with
    | (Ok a, w') => (Ok a, w')
    | (Raise e, w') => h e w'
    end.

(** [try: m  finally: f]: [f] runs either way; what [m] returned or raised
    stands unless [f] raises. *)
Definition try_finally {A} (m : M A) (f : M unit) : M A :=
  fun w =>
    let (r, w') := m w in
    match f w' with
    | (Ok _, w'') => (r, w'')
    | (Raise e, w'') => (Raise e, w'')
    end.

Declare Scope monad_scope.
Delimit Scope monad_scope with monad.
Notation "x <- m ;; k" := (bind m (fun x => k))
  (at level 61, m at next level, right associativity) : monad_scope.
Notation "m ;;; k" := (bind m (fun _ => k))
  (at level 61, right associativity) : monad_scope.
Local Open Scope monad_scope.

(* ===================================================================== *)
(** ** The service *)
(* ===================================================================== *)

(** The dict [get_weather_from_openmeteo] returns. *)
Module Weather.
Record t : Type := {
  temperature : json;
  humidity : json;
  description : pystr;
  windspeed : json;
  winddirection : json;
  weathercode : json;
  coordinates : Coordinates
}.
End Weather.

(** The body of a successful [GET /weather/{city}]. *)
Module Reply.
Record t : Type := {
  city : pystr;
  temperature : json;
  humidity : json;
  description : pystr;
  windspeed : json;
  winddirection : json;
  weathercode : json;
  coordinates : Coordinates;
  provider : string;
  timestamp : Z;
  id : Z
}.
End Reply.

(** [datetime.isoformat()]: the text form of a timestamp. *)
Inductive isotext : Type := isoformat (t : Z).

(** One element of the [GET /history/] body. *)
Module Item.
Record t : Type := {
  id : Z;
  city : pystr;
  temperature : json;
  humidity : json;
  description : pystr;
  windspeed : json;
  winddirection : json;
  weathercode : json;
  timestamp : isotext
}.
End Item.

(** The body of [GET /health]. *)
Module Health.
Record t : Type := {
  status : string;
  api_status : string;
  provider : string;
  timestamp : isotext;
  version : string
}.
End Health.

(** The typed columns of a row, as read back. *)
Module Stored.
Record t : Type := {
  temperature : json;
  humidity : json;
  windspeed : json;
  winddirection : json;
  weathercode : json
}.
End Stored.

(** [ORDER BY timestamp DESC] as an insertion sort: a row goes before the
    first row that is older, or as old and after it in the engine's order
    of ties. *)
Fixpoint insert_newest_first
         (tie : models.WeatherRequest -> models.WeatherRequest -> bool)
         (r : models.WeatherRequest) (l : list models.WeatherRequest)
  : list models.WeatherRequest :=
  match l with
  | [] => [r]
  | x :: l' =>
      if (models.timestamp x <? models.timestamp r)
         || ((models.timestamp x =? models.timestamp r) && tie r x)
      then r :: l
      else x :: insert_newest_first tie r l'
  end.

Fixpoint sort_newest_first
         (tie : models.WeatherRequest -> models.WeatherRequest -> bool)
         (l : list models.WeatherRequest) : list models.WeatherRequest :=
  match l with
  | [] => []
  | r :: l' => insert_newest_first tie r (sort_newest_first tie l')
  end.

Section Service.

Variable env : Env.

(** An external operation starts: its number, and the clock moves on. *)
Definition tick : M nat :=
  fun w => (Ok (steps w), advance (elapse env (steps w)) w).

Definition record_metric (ev : metric_event) : M unit :=
  fun w => (Ok tt, note ev w).

(** [datetime.utcnow()] *)
Definition utcnow : M Z := fun w => (Ok (now w), w).

(** [requests.get(...)] *)
Definition requests_get (req : http_request) : M Response :=
  k <- tick ;;
  (fun w => (Ok tt, log_request req w)) ;;;
  match http_get env k req with
  | Fails e => raise (RequestException e)
  | Responds s b => ret {| status_code := s; body := b |}
  end.

(** [response.raise_for_status()]: a 4xx or 5xx status raises. *)
Definition raise_for_status (response : Response) : M unit :=
  if (400 <=? status_code response) && (status_code response <? 600)
  then raise (RequestException (HTTPError (status_code response)))
  else ret tt.

(** [response.json()] *)
Definition response_json (response : Response) : M json :=
  match body response with
  | Some data => ret data
  | None => raise (RequestException JSONDecodeError)
  end.

(** Lines 128-132: the first entry of the hourly humidity series, or
    [None] when the series is missing or empty. *)
Definition first_humidity (data : json) : result json :=
  (let* has_hourly := Py.contains (utf8 "hourly") data in
   if negb has_hourly then Ok JNull else
   let* h := Py.getitem data (utf8 "hourly") in
   let* has_series := Py.contains (utf8 "relativehumidity_2m") h in
   if negb has_series then Ok JNull else
   let* humidities := Py.getitem h (utf8 "relativehumidity_2m") in
   if Py.truthy humidities then Py.getitem0 humidities else Ok JNull)%result.

(** Lines 121-142: from the decoded body to the returned dict. *)
Definition read_forecast (coords : Coordinates) (data : json)
  : result Weather.t :=
  (let* current := Py.getitem data (utf8 "current_weather") in
   let* weather_code := Py.getitem current (utf8 "weathercode") in
   let* description :=
     Py.get WEATHER_CODES weather_code (utf8 "Неизвестно") in
   let* humidity := first_humidity data in
   let* temperature := Py.getitem current (utf8 "temperature") in
   let humidity_or_50 := Py.or_ humidity (JInt 50) in
   let* windspeed := Py.getitem current (utf8 "windspeed") in
   let* winddirection := Py.getitem current (utf8 "winddirection") in
   Ok {| Weather.temperature := temperature;
         Weather.humidity := humidity_or_50;
         Weather.description := description;
         Weather.windspeed := windspeed;
         Weather.winddirection := winddirection;
         Weather.weathercode := weather_code;
         Weather.coordinates := coords |})%result.

(** Lines 106-116: the GET for a pair of coordinates. *)
Definition forecast_request (coords : Coordinates) : http_request :=
  let params :=
    {| latitude := lat coords; longitude := lon coords;
       current_weather := true;
       hourly := "temperature_2m,relativehumidity_2m";
       timezone := "auto"; forecast_days := 1 |} in
  {| url := OPENMETEO_URL; params := Some params; timeout := 10 |}.

(** The [try] block of [get_weather_from_openmeteo]. *)
Definition fetch (city : pystr) : M Weather.t :=
  coords <- lift (get_city_coordinates (unicode_lower env) city) ;;
  response <- requests_get (forecast_request coords) ;;
  raise_for_status response ;;;
  data <- response_json response ;;
  lift (read_forecast coords data).

(** The three [except] clauses of [get_weather_from_openmeteo]: the
    exception each raises for the one it caught. *)
Definition fetch_handler (e : exn) : exn :=
  match e with
  | RequestException _ =>
      HTTPException 503 "Ошибка при запросе к API погоды: " (Some e)
  | KeyError _ =>
      HTTPException 500 "Некорректный ответ от API: " (Some e)
  | _ =>
      HTTPException 500 "Внутренняя ошибка: " (Some e)
  end.

(** [get_weather_from_openmeteo(city)] *)
Definition get_weather_from_openmeteo (city : pystr) : M Weather.t :=
  try_except (fetch city) (fun e => raise (fetch_handler e)).

(** A value left to the engine: what it reads back, or its refusal. *)
Definition cast (ty : column_type) (v : json) : result json :=
  match engine_cast env ty v with
  | Some x => Ok x
  | None => Raise SQLAlchemyError
  end.

(** A float in a [Float] column reads back as it is; what becomes of NaN
    is the engine's affair. *)
Definition store_float (f : float) : result json :=
  if PrimFloat.is_nan f then cast FloatColumn (JFloat f)
  else Ok (JFloat f).

(** [Column(Float)] of [models.py]: the bind processor is [float(value)]
    for every value but [None], so 50 is stored as 50.0 and [True] as 1.0;
    a value [float] rejects fails the statement. *)
Definition float_column (v : json) : result json :=
  match v with
  | JNull => Ok JNull
  | JBool b => Ok (JFloat (if b then 1 else 0))
  | JInt z =>
      match Py.float_of_int z with
      | Some f => Ok (JFloat f)
      | None => Raise SQLAlchemyError
      end
  | JFloat f => store_float f
  | JStr s =>
      match float_of_str env s with
      | Some f => store_float f
      | None => Raise SQLAlchemyError
      end
  | JArr _ | JObj _ => Raise SQLAlchemyError
  end.

(** [Column(Integer)] of [models.py]: no processor; the driver binds
    [None], a [bool] as 1 or 0 and an [int] of 64 bits, and refuses a
    larger [int] with [OverflowError]. *)
Definition integer_column (v : json) : result json :=
  match v with
  | JNull => Ok JNull
  | JBool b => Ok (JInt (if b then 1 else 0))
  | JInt z =>
      if (- int64_limit <=? z) && (z <? int64_limit) then Ok (JInt z)
      else Raise OverflowError
  | JFloat _ | JStr _ => cast IntegerColumn v
  | JArr _ | JObj _ => Raise SQLAlchemyError
  end.

(** What the typed columns hold for the weather the handler passes: the
    float processors run when the statement is prepared, the integer is
    bound when it is executed. *)
Definition column_values (wd : Weather.t) : result Stored.t :=
  (let* temperature := float_column (Weather.temperature wd) in
   let* humidity := float_column (Weather.humidity wd) in
   let* windspeed := float_column (Weather.windspeed wd) in
   let* winddirection := float_column (Weather.winddirection wd) in
   let* weathercode := integer_column (Weather.weathercode wd) in
   Ok {| Stored.temperature := temperature;
         Stored.humidity := humidity;
         Stored.windspeed := windspeed;
         Stored.winddirection := winddirection;
         Stored.weathercode := weathercode |})%result.

(** The row an INSERT stores, as it reads back: the engine gives the key,
    the column default [datetime.utcnow] the timestamp, the text columns
    hold the handler's strings and the typed columns what
    [column_values] makes of its numbers. *)
Definition new_row (c : pystr) (wd : Weather.t) (w : World)
  : result models.WeatherRequest :=
  (let* v := column_values wd in
   Ok {| models.id := next_id env (table w);
         models.city := c;
         models.temperature := Stored.temperature v;
         models.humidity := Stored.humidity v;
         models.description := Weather.description wd;
         models.windspeed := Stored.windspeed v;
         models.winddirection := Stored.winddirection v;
         models.weathercode := Stored.weathercode v;
         models.timestamp := now w |})%result.

(** [db.add(row); db.commit()]: the INSERT runs at the flush.  A flush
    that fails, or a value a column refuses, stores nothing. *)
Definition db_commit (c : pystr) (wd : Weather.t) : M models.WeatherRequest :=
  k <- tick ;;
  if storage_fault env k then raise SQLAlchemyError
  else
    fun w =>
      match new_row c wd w with
      | Ok row => (Ok row, store row w)
      | Raise e => (Raise e, w)
      end.

(** [db.refresh(row)]: the row is read back. *)
Definition db_refresh (row : models.WeatherRequest) : M models.WeatherRequest :=
  k <- tick ;;
  if storage_fault env k then raise SQLAlchemyError else ret row.

(** Lines 161-172: the insert of the persistence gateway. *)
Definition insert (c : pystr) (wd : Weather.t) : M models.WeatherRequest :=
  row <- db_commit c wd ;;
  db_refresh row.

(** The [try] block of [get_weather_by_city]. *)
Definition weather_body (c : pystr) : M Reply.t :=
  weather_data <- get_weather_from_openmeteo c ;;
  db_weather <- insert c weather_data ;;
  record_metric (CounterInc "success") ;;;
  ts <- utcnow ;;
  ret {| Reply.city := c;
         Reply.temperature := Weather.temperature weather_data;
         Reply.humidity := Weather.humidity weather_data;
         Reply.description := Weather.description weather_data;
         Reply.windspeed := Weather.windspeed weather_data;
         Reply.winddirection := Weather.winddirection weather_data;
         Reply.weathercode := Weather.weathercode weather_data;
         Reply.coordinates := Weather.coordinates weather_data;
         Reply.provider := WEATHER_API_PROVIDER env;
         Reply.timestamp := ts;
         Reply.id := models.id db_weather |}.

(** Its two [except] clauses. *)
Definition weather_handler {A} (e : exn) : M A :=
  match e with
  | HTTPException _ _ _ =>
      record_metric (CounterInc "error") ;;; raise e
  | _ =>
      record_metric (CounterInc "error") ;;;
      raise (HTTPException 500 "" (Some e))
  end.

(** [GET /weather/{city}] *)
Definition get_weather_by_city (c : pystr) : M Reply.t :=
  fun w =>
    let start_time := time_time env (now w) in
    try_finally
      (try_except (weather_body c) weather_handler)
      (fun w' =>
         let latency := PrimFloat.sub (time_time env (now w')) start_time in
         record_metric (HistogramObserve latency) w')
      w.

Definition flatten (item : models.WeatherRequest) : Item.t :=
  {| Item.id := models.id item;
     Item.city := models.city item;
     Item.temperature := models.temperature item;
     Item.humidity := models.humidity item;
     Item.description := models.description item;
     Item.windspeed := models.windspeed item;
     Item.winddirection := models.winddirection item;
     Item.weathercode := models.weathercode item;
     Item.timestamp := isoformat (models.timestamp item) |}.

(** [OFFSET skip LIMIT limit] over ordered rows, for [skip] and [limit]
    that are not negative. *)
Definition window (skip limit : Z) (ordered : list models.WeatherRequest)
  : list models.WeatherRequest :=
  firstn (Z.to_nat limit) (skipn (Z.to_nat skip) ordered).

(** [ORDER BY timestamp DESC] for a query with the given OFFSET and
    LIMIT: newest first, ties in the engine's order. *)
Definition order_by_timestamp_desc
           (skip limit : Z) (rows : list models.WeatherRequest)
  : list models.WeatherRequest :=
  sort_newest_first (tie_order env skip limit) rows.

(** [query.order_by(timestamp.desc()).offset(skip).limit(limit).all()].
    OFFSET and LIMIT are bound as 64-bit integers: from [2^63] on the
    driver raises [OverflowError]. *)
Definition listRecent (skip limit : Z) : M (list models.WeatherRequest) :=
  k <- tick ;;
  if storage_fault env k then raise SQLAlchemyError
  else
    fun w =>
      if (skip <? 0) || (limit <? 0)
      then (negative_window env skip limit (table w), w)
      else if (int64_limit <=? skip) || (int64_limit <=? limit)
      then (Raise OverflowError, w)
      else
        (Ok (window skip limit
               (order_by_timestamp_desc skip limit (table w))), w).

(** [get_history(skip, limit, db)]: the body of [GET /history/]. *)
Definition get_history (skip limit : Z) : M (list Item.t) :=
  history <- listRecent skip limit ;;
  ret (map flatten history).

(** The defaults of the query parameters, [skip: int = 0] and
    [limit: int = 10]. *)
Definition default_skip : Z := 0.
Definition default_limit : Z := 10.

(** [GET /history/?skip=&limit=]: a parameter the request leaves out takes
    its default. *)
Definition get_history_query (skip limit : option Z) : M (list Item.t) :=
  get_history
    (match skip with Some n => n | None => default_skip end)
    (match limit with Some n => n | None => default_limit end).

Definition health_body (api : string) : M Health.t :=
  ts <- utcnow ;;
  ret {| Health.status := "healthy";
         Health.api_status := api;
         Health.provider := WEATHER_API_PROVIDER env;
         Health.timestamp := isoformat ts;
         Health.version := "1.0.0" |}.

(** The reachability probe. *)
Definition status_request : http_request :=
  {| url := "https://api.open-meteo.com/v1/status";
     params := None; timeout := 5 |}.

(** [GET /health] *)
Definition health_check : M Health.t :=
  try_except
    (response <- requests_get status_request ;;
     let api_status :=
       if status_code response =? 200 then "healthy" else "unhealthy" in
     health_body api_status)
    (fun _ => health_body "unreachable").

End Service.

(* ===================================================================== *)
(** ** The reference endpoints *)
(* ===================================================================== *)

(** The body of [GET /available-cities]. *)
Module Cities.
Record t : Type := {
  available_cities : list pystr;
  count : Z
}.
End Cities.

(** [GET /weather-codes] *)
Definition get_weather_codes : M (list (Z * pystr)) := ret WEATHER_CODES.

(** [GET /available-cities]: [list(CITY_COORDINATES.keys())] and its
    length. *)
Definition get_available_cities : M Cities.t :=
  let cities := map fst CITY_COORDINATES in
  ret {| Cities.available_cities := cities;
         Cities.count := Z.of_nat (List.length cities) |}.

(* ===================================================================== *)
(** ** A concrete environment *)
(* ===================================================================== *)

(** An engine that numbers the rows 1, 2, 3, ... *)
Definition serial_id (rows : list models.WeatherRequest) : Z :=
  1 + fold_right (fun r m => Z.max (models.id r) m) 0 rows.

(** A provider that answers every GET alike, a clock that moves by [dt]
    at each operation, a storage that never fails, keeps rows of equal
    timestamp in storage order, reads no string as a float, stores NaN as
    NULL and keeps what else it does not convert. *)
Definition sample_env (answer : upstream_outcome) (dt : Z) : Env :=
  {| unicode_lower := fun c => [c];
     WEATHER_API_PROVIDER := "openmeteo";
     elapse := fun _ => dt;
     time_time := fun t => PrimFloat.div (PrimFloat.of_uint63 (Uint63.of_Z t)) 1000000;
     http_get := fun _ _ => answer;
     storage_fault := fun _ => false;
     next_id := serial_id;
     tie_order := fun _ _ _ _ => true;
     float_of_str := fun _ => None;
     engine_cast := fun ty v =>
       match ty with FloatColumn => Some JNull | IntegerColumn => Some v end;
     negative_window := fun _ _ _ => Raise SQLAlchemyError |}.

Definition empty_world : World :=
  {| now := 1000000; steps := 0; http_log := []; table := []; metrics := [] |}.

(** The same environment with another clock. *)
Definition set_clock (env : Env) (clock : nat -> Z) : Env :=
  {| unicode_lower := unicode_lower env;
     WEATHER_API_PROVIDER := WEATHER_API_PROVIDER env;
     elapse := clock;
     time_time := time_time env;
     http_get := http_get env;
     storage_fault := storage_fault env;
     next_id := next_id env;
     tie_order := tie_order env;
     float_of_str := float_of_str env;
     engine_cast := engine_cast env;
     negative_window := negative_window env |}.

(** The same environment with a storage that fails at the operations
    [fault] tells. *)
Definition set_storage_fault (env : Env) (fault : nat -> bool) : Env :=
  {| unicode_lower := unicode_lower env;
     WEATHER_API_PROVIDER := WEATHER_API_PROVIDER env;
     elapse := elapse env;
     time_time := time_time env;
     http_get := http_get env;
     storage_fault := fault;
     next_id := next_id env;
     tie_order := tie_order env;
     float_of_str := float_of_str env;
     engine_cast := engine_cast env;
     negative_window := negative_window env |}.

Definition sample_weather : Weather.t :=
  {| Weather.temperature := JFloat 21.5;
     Weather.humidity := JInt 65;
     Weather.description := utf8 "Ясно";
     Weather.windspeed := JFloat 3.4;
     Weather.winddirection := JInt 180;
     Weather.weathercode := JInt 0;
     Weather.coordinates := {| lat := 48.8566; lon := 2.3522 |} |}.

Definition sample_row (i ts : Z) : models.WeatherRequest :=
  {| models.id := i;
     models.city := utf8 "Paris";
     models.temperature := JFloat 21.5;
     models.humidity := JFloat 65;
     models.description := utf8 "Ясно";
     models.windspeed := JFloat 3.4;
     models.winddirection := JFloat 180;
     models.weathercode := JInt 0;
     models.timestamp := ts |}.

(** Three stored rows, the oldest first. *)
Definition sample_world : World :=
  {| now := 1000000; steps := 0; http_log := [];
     table := [sample_row 1 100; sample_row 2 200; sample_row 3 300];
     metrics := [] |}.

(** A forecast body: the current-weather block and the hourly humidity
    series. *)
Definition forecast (code : json) (humidities : option json) : json :=
  JObj ((utf8 "current_weather",
         JObj [ (utf8 "temperature", JFloat 21.5);
                (utf8 "windspeed", JFloat 3.4);
                (utf8 "winddirection", JInt 180);
                (utf8 "weathercode", code) ])
        :: match humidities with
           | Some h => [ (utf8 "hourly", JObj [ (utf8 "relativehumidity_2m", h) ]) ]
           | None => []
           end).

(* ===================================================================== *)
(** ** Vocabulary of the properties *)
(* ===================================================================== *)

(** The pair a city resolves to. *)
Definition resolved (ul : N -> pystr) (city : pystr) : Coordinates :=
  match Py.assoc (strip (lower ul city)) CITY_COORDINATES with
  | Some p => p
  | None => default_coordinates
  end.

(** The statuses [raise_for_status] raises on. *)
Definition error_status (s : Z) : bool := (400 <=? s) && (s <? 600).


(** What the [try] block of the client comes to, given the provider's
    answer to its GET. *)
Definition upstream_result (coords : Coordinates) (answer : upstream_outcome)
  : result Weather.t :=
  match answer with
  | Fails e => Raise (RequestException e)
  | Responds s b =>
      if error_status s then Raise (RequestException (HTTPError s))
      else match b with
           | None => Raise (RequestException JSONDecodeError)
           | Some data => read_forecast coords data
           end
  end.

(** The error kinds of the specification.  The service tells them apart
    by the status code and the fixed head of the detail message. *)
Inductive ErrorKind : Type :=
| UpstreamUnavailable
| UpstreamMalformed
| InternalError.

Definition error_kind (e : exn) : option ErrorKind :=
  match e with
  | HTTPException s d _ =>
      if (s =? 503) && String.eqb d "Ошибка при запросе к API погоды: "
      then Some UpstreamUnavailable
      else if (s =? 500) && String.eqb d "Некорректный ответ от API: "
      then Some UpstreamMalformed
      else if s =? 500 then Some InternalError
      else None
  | _ => None
  end.

(** A call fails with an HTTP exception of the given kind and status. *)
Definition fails_with {A} (r : result A) (kind : ErrorKind) (status : Z) : Prop :=
  exists d c, r = Raise (HTTPException status d c)
              /\ error_kind (HTTPException status d c) = Some kind.


(** What the caller of the handler gets for an exception of the [try]
    block. *)
Definition at_boundary (e : exn) : exn :=
  match e with
  | HTTPException _ _ _ => e
  | _ => HTTPException 500 "" (Some e)
  end.

(** The value of [REQUEST_COUNT] for a label, and the number of
    observations [REQUEST_LATENCY] holds, after a sequence of updates. *)
Definition counter_value (label : string) (log : list metric_event) : nat :=
  List.length (filter (fun ev => match ev with
                            | CounterInc l => String.eqb l label
                            | HistogramObserve _ => false
                            end) log).

Definition observations (log : list metric_event) : nat :=
  List.length (filter (fun ev => match ev with
                            | CounterInc _ => false
                            | HistogramObserve _ => true
                            end) log).

(** The label the decoder gives a code. *)
Definition label_of (code : json) : pystr :=
  match Py.get_int WEATHER_CODES code with
  | Some l => l
  | None => utf8 "Неизвестно"
  end.

(** [a] may stand before [b] in a listing that is newest first. *)
Definition newest_first (a b : models.WeatherRequest) : Prop :=
  models.timestamp b <= models.timestamp a.

(** What [ORDER BY timestamp DESC] promises, whatever the engine: the rows
    of the table, each once, no row before a newer one. *)
Definition engine_orders (env : Env) : Prop :=
  forall skip limit rows,
    Permutation rows (order_by_timestamp_desc env skip limit rows)
    /\ Sorted newest_first (order_by_timestamp_desc env skip limit rows).

(** No stored timestamp is ahead of the clock. *)
Definition clock_bounds_table (w : World) : Prop :=
  Forall (fun r => models.timestamp r <= now w) (table w).

(** Every counted request has its latency observed, and the reverse. *)
Definition metrics_balanced (log : list metric_event) : Prop :=
  (counter_value "success" log + counter_value "error" log)%nat
  = observations log.

(** The exception is an HTTP exception of status 503 or 500. *)
Definition http_503_or_500 (e : exn) : Prop :=
  exists s d c, e = HTTPException s d c /\ (s = 503 \/ s = 500).

(** The value is a JSON object, a Python [dict]. *)
Definition is_object (v : json) : bool :=
  match v with JObj _ => true | _ => false end.

(* ===================================================================== *)
(** ** Text and dict lemmas *)
(* ===================================================================== *)

Lemma text_eqb_eq (s t : pystr) : Text.eqb s t = true <-> s = t.
Proof.
  revert t; induction s as [|c s IH]; intros [|d t]; simpl;
    try (split; [discriminate | discriminate]); [tauto|].
  rewrite andb_true_iff, N.eqb_eq, IH.
  split; [intros [-> ->]; reflexivity | intros E; injection E; auto].
Qed.

Lemma text_eqb_refl (s : pystr) : Text.eqb s s = true.
Proof. apply text_eqb_eq; reflexivity. Qed.

Lemma assoc_In {V} (k : pystr) (d : list (pystr * V)) (v : V) :
  Py.assoc k d = Some v -> In (k, v) d.
Proof.
  induction d as [|[k' x] d IH]; simpl; [discriminate|].
  destruct (Text.eqb k k') eqn:E.
  - intros H; injection H as ->. apply text_eqb_eq in E; subst; auto.
  - auto.
Qed.

Lemma lstrip_spaces (ws s : pystr) :
  forallb is_space ws = true -> lstrip (ws ++ s) = lstrip s.
Proof.
  induction ws as [|c ws IH]; simpl; [reflexivity|].
  rewrite andb_true_iff; intros [-> H]; auto.
Qed.

Lemma lstrip_app (s t : pystr) :
  lstrip (s ++ t) = if forallb is_space s then lstrip t else lstrip s ++ t.
Proof.
  induction s as [|c s IH]; simpl; [reflexivity|].
  destruct (is_space c); simpl; [exact IH | reflexivity].
Qed.

Lemma rstrip_spaces (s ws : pystr) :
  forallb is_space ws = true -> rstrip (s ++ ws) = rstrip s.
Proof.
  intros H; unfold rstrip.
  rewrite rev_app_distr, lstrip_spaces; [reflexivity|].
  rewrite forallb_forall in *; intros c Hc; apply H, in_rev, Hc.
Qed.

Lemma lstrip_all_space (s : pystr) :
  forallb is_space s = true -> lstrip s = [].
Proof.
  induction s as [|c s IH]; simpl; [reflexivity|].
  rewrite andb_true_iff; intros [-> H]; auto.
Qed.

(** White space around a string does not change what [strip] returns. *)
Lemma strip_surrounded (ws1 s ws2 : pystr) :
  forallb is_space ws1 = true -> forallb is_space ws2 = true ->
  strip (ws1 ++ s ++ ws2) = strip s.
Proof.
  intros H1 H2; unfold strip.
  rewrite lstrip_spaces by assumption.
  rewrite lstrip_app.
  destruct (forallb is_space s) eqn:E.
  - rewrite (lstrip_all_space _ H2), (lstrip_all_space _ E); reflexivity.
  - apply rstrip_spaces; assumption.
Qed.

Lemma lower_app (ul : N -> pystr) (s t : pystr) :
  lower ul (s ++ t) = lower ul s ++ lower ul t.
Proof. unfold lower; apply flat_map_app. Qed.

(** White space has no case. *)
Lemma lower_spaces (ul : N -> pystr) (ws : pystr) :
  forallb is_space ws = true -> lower ul ws = ws.
Proof.
  induction ws as [|c ws IH]; simpl; [reflexivity|].
  rewrite andb_true_iff; intros [Hc H].
  unfold lower_cp; rewrite Hc; simpl; f_equal; auto.
Qed.

(** No key of the coordinate table begins or ends with white space. *)
Lemma keys_are_stripped :
  Forall (fun kv => strip (fst kv) = fst kv) CITY_COORDINATES.
Proof. repeat constructor. Qed.

Lemma get_city_coordinates_unfold (ul : N -> pystr) (city : pystr) :
  get_city_coordinates ul city =
  Ok (match Py.assoc (strip (lower ul city)) CITY_COORDINATES with
      | Some p => p
      | None => default_coordinates
      end).
Proof.
  unfold get_city_coordinates, dict_contains, dict_getitem.
  destruct (Py.assoc (strip (lower ul city)) CITY_COORDINATES); reflexivity.
Qed.

(* ===================================================================== *)
(** ** Coordinate resolver: properties *)
(* ===================================================================== *)

(** C2.  Resolution lower-cases and strips its input, returns the stored
    pair when the normalized name is a key of [CITY_COORDINATES] and the
    default pair otherwise, and so never raises; a key written in any case
    and surrounded by any white space resolves to the pair stored for it. *)
Theorem resolve_normalizes_then_looks_up :
  forall (ul : N -> pystr) (city : pystr),
    get_city_coordinates ul city =
      Ok (match Py.assoc (strip (lower ul city)) CITY_COORDINATES with
          | Some p => p
          | None => default_coordinates
          end)
    /\ (forall key p ws1 ws2,
          Py.assoc key CITY_COORDINATES = Some p ->
          lower ul city = key ->
          forallb is_space ws1 = true -> forallb is_space ws2 = true ->
          get_city_coordinates ul (ws1 ++ city ++ ws2) = Ok p).
Proof.
  intros ul city; split; [apply get_city_coordinates_unfold|].
  intros key p ws1 ws2 Hkey Hlow H1 H2.
  rewrite get_city_coordinates_unfold.
  rewrite !lower_app, (lower_spaces ul _ H1), (lower_spaces ul _ H2), Hlow.
  rewrite strip_surrounded by assumption.
  pose proof keys_are_stripped as K.
  rewrite Forall_forall in K.
  pose proof (K _ (assoc_In _ _ Hkey)) as Ks; simpl in Ks.
  rewrite Ks, Hkey; reflexivity.
Qed.

Lemma resolve_normalizes_then_looks_up_witness :
  get_city_coordinates (fun c => [c]) (utf8 "  КаЗаНь ")
  = Ok {| lat := 55.7961; lon := 49.1064 |}.
Proof.
  apply (proj2 (resolve_normalizes_then_looks_up (fun c => [c]) (utf8 "КаЗаНь"))
           (utf8 "казань") {| lat := 55.7961; lon := 49.1064 |}
           (utf8 "  ") (utf8 " "));
    reflexivity.
Defined.

(** C10.  The default pair is the table's entry for "moscow"; whatever the
    input, the resolved pair is a value of the table; and a city that is not
    in the table resolves as "moscow" does. *)
Theorem default_is_moscow :
  dict_getitem CITY_COORDINATES (utf8 "moscow") = Ok default_coordinates
  /\ forall (ul : N -> pystr) (city : pystr),
       (exists p, get_city_coordinates ul city = Ok p
                  /\ In p (map snd CITY_COORDINATES))
       /\ (dict_contains CITY_COORDINATES (strip (lower ul city)) = false ->
           get_city_coordinates ul city = Ok default_coordinates
           /\ get_city_coordinates ul city
              = get_city_coordinates ul (utf8 "moscow")).
Proof.
  split; [reflexivity|].
  intros ul city; split.
  - rewrite get_city_coordinates_unfold.
    destruct (Py.assoc (strip (lower ul city)) CITY_COORDINATES) as [p|] eqn:E.
    + exists p; split; [reflexivity|].
      apply assoc_In in E. apply (in_map snd) in E. exact E.
    + exists default_coordinates; split; [reflexivity|].
      simpl; auto.
  - unfold dict_contains; intros H.
    rewrite get_city_coordinates_unfold.
    destruct (Py.assoc (strip (lower ul city)) CITY_COORDINATES);
      [discriminate|].
    split; reflexivity.
Qed.

Lemma default_is_moscow_witness :
  get_city_coordinates (fun c => [c]) (utf8 "Atlantis")
  = get_city_coordinates (fun c => [c]) (utf8 "moscow").
Proof.
  apply (proj2 (proj2 default_is_moscow (fun c => [c]) (utf8 "Atlantis"))).
  reflexivity.
Defined.

(* ===================================================================== *)
(** ** Running the client *)
(* ===================================================================== *)

Lemma get_city_coordinates_resolved (ul : N -> pystr) (city : pystr) :
  get_city_coordinates ul city = Ok (resolved ul city).
Proof. apply get_city_coordinates_unfold. Qed.

Lemma requests_get_run (env : Env) (req : http_request) (w : World) :
  requests_get env req w =
  (match http_get env (steps w) req with
   | Fails e => Raise (RequestException e)
   | Responds s b => Ok {| status_code := s; body := b |}
   end,
   log_request req (advance (elapse env (steps w)) w)).
Proof.
  unfold requests_get, bind, tick; simpl.
  destruct (http_get env (steps w) req); reflexivity.
Qed.

(** The [try] block: one GET, then a pure reading of the answer. *)
Lemma fetch_run (env : Env) (city : pystr) (w : World) :
  let coords := resolved (unicode_lower env) city in
  let req := forecast_request coords in
  fetch env city w =
  (upstream_result coords (http_get env (steps w) req),
   log_request req (advance (elapse env (steps w)) w)).
Proof.
  intros coords req; unfold fetch, bind at 1, lift.
  rewrite get_city_coordinates_resolved; fold coords req.
  unfold bind at 1; rewrite requests_get_run.
  unfold upstream_result.
  destruct (http_get env (steps w) req) as [e|s b]; [reflexivity|].
  unfold bind, raise_for_status, response_json, error_status, raise, ret, lift;
    simpl.
  destruct ((400 <=? s) && (s <? 600)); [reflexivity|].
  destruct b; reflexivity.
Qed.

Lemma get_weather_from_openmeteo_run (env : Env) (city : pystr) (w : World) :
  let coords := resolved (unicode_lower env) city in
  let req := forecast_request coords in
  get_weather_from_openmeteo env city w =
  (match upstream_result coords (http_get env (steps w) req) with
   | Ok wd => Ok wd
   | Raise e => Raise (fetch_handler e)
   end,
   log_request req (advance (elapse env (steps w)) w)).
Proof.
  intros coords req; unfold get_weather_from_openmeteo, try_except.
  rewrite fetch_run; fold coords req.
  destruct (upstream_result coords (http_get env (steps w) req)); reflexivity.
Qed.

Lemma and_then_raise {A B} (r : result A) (k : A -> result B) (e : exn) :
  and_then r k = Raise e ->
  r = Raise e \/ exists a, r = Ok a /\ k a = Raise e.
Proof. destruct r as [a|e']; simpl; [right; eauto | intros [= ->]; auto]. Qed.







(* ===================================================================== *)
(** ** Running the weather handler *)
(* ===================================================================== *)


(** The insert: one storage call for the flush, where the columns take
    or refuse the values, and one for the refresh. *)
Lemma insert_run (env : Env) (c : pystr) (wd : Weather.t) (w : World) :
  let w1 := advance (elapse env (steps w)) w in
  insert env c wd w =
  if storage_fault env (steps w) then (Raise SQLAlchemyError, w1)
  else
    match new_row env c wd w1 with
    | Raise e => (Raise e, w1)
    | Ok row =>
        let w2 := advance (elapse env (S (steps w))) (store row w1) in
        if storage_fault env (S (steps w)) then (Raise SQLAlchemyError, w2)
        else (Ok row, w2)
    end.
Proof.
  intros w1; unfold insert, db_commit, db_refresh, bind, tick.
  destruct (storage_fault env (steps w)) eqn:F1; [reflexivity|].
  fold w1. destruct (new_row env c wd w1) as [row|e]; [|reflexivity].
  simpl. destruct (storage_fault env (S (steps w))); reflexivity.
Qed.

(** What a stored row holds. *)
Lemma new_row_inv (env : Env) (c : pystr) (wd : Weather.t) (w : World)
      (row : models.WeatherRequest) :
  new_row env c wd w = Ok row ->
  exists v,
    column_values env wd = Ok v
    /\ row = {| models.id := next_id env (table w);
                models.city := c;
                models.temperature := Stored.temperature v;
                models.humidity := Stored.humidity v;
                models.description := Weather.description wd;
                models.windspeed := Stored.windspeed v;
                models.winddirection := Stored.winddirection v;
                models.weathercode := Stored.weathercode v;
                models.timestamp := now w |}.
Proof.
  unfold new_row. destruct (column_values env wd) as [v|e]; simpl;
    [|discriminate].
  intros [= <-]. eauto.
Qed.

Lemma new_row_of_values (env : Env) (c : pystr) (wd : Weather.t) (w : World)
      (v : Stored.t) :
  column_values env wd = Ok v ->
  new_row env c wd w
  = Ok {| models.id := next_id env (table w);
          models.city := c;
          models.temperature := Stored.temperature v;
          models.humidity := Stored.humidity v;
          models.description := Weather.description wd;
          models.windspeed := Stored.windspeed v;
          models.winddirection := Stored.winddirection v;
          models.weathercode := Stored.weathercode v;
          models.timestamp := now w |}.
Proof. unfold new_row. intros ->. reflexivity. Qed.

(** The typed fields of a stored row are the columns' readings of the
    weather's fields. *)
Lemma column_values_inv (env : Env) (wd : Weather.t) (v : Stored.t) :
  column_values env wd = Ok v ->
  float_column env (Weather.temperature wd) = Ok (Stored.temperature v)
  /\ float_column env (Weather.humidity wd) = Ok (Stored.humidity v)
  /\ float_column env (Weather.windspeed wd) = Ok (Stored.windspeed v)
  /\ float_column env (Weather.winddirection wd)
     = Ok (Stored.winddirection v)
  /\ integer_column env (Weather.weathercode wd) = Ok (Stored.weathercode v).
Proof.
  unfold column_values.
  destruct (float_column env (Weather.temperature wd)); [|discriminate].
  destruct (float_column env (Weather.humidity wd)); [|discriminate].
  destruct (float_column env (Weather.windspeed wd)); [|discriminate].
  destruct (float_column env (Weather.winddirection wd)); [|discriminate].
  destruct (integer_column env (Weather.weathercode wd)); [|discriminate].
  simpl. intros [= <-]. simpl. auto.
Qed.

Lemma float_column_raises (env : Env) (v : json) (e : exn) :
  float_column env v = Raise e -> e = SQLAlchemyError.
Proof.
  unfold float_column, store_float, cast.
  destruct v; try discriminate; try (intros [= <-]; reflexivity).
  - destruct (Py.float_of_int z); [discriminate|].
    intros [= <-]; reflexivity.
  - destruct (PrimFloat.is_nan f); [|discriminate].
    destruct (engine_cast env FloatColumn (JFloat f)); [discriminate|].
    intros [= <-]; reflexivity.
  - destruct (float_of_str env s) as [f|]; [|intros [= <-]; reflexivity].
    destruct (PrimFloat.is_nan f); [|discriminate].
    destruct (engine_cast env FloatColumn (JFloat f)); [discriminate|].
    intros [= <-]; reflexivity.
Qed.

Lemma integer_column_raises (env : Env) (v : json) (e : exn) :
  integer_column env v = Raise e -> e = SQLAlchemyError \/ e = OverflowError.
Proof.
  unfold integer_column, cast.
  destruct v; try discriminate; try (intros [= <-]; auto).
  - destruct ((- int64_limit <=? z) && (z <? int64_limit)); [discriminate|].
    intros [= <-]; auto.
  - destruct (engine_cast env IntegerColumn (JFloat f)); [discriminate|].
    intros [= <-]; auto.
  - destruct (engine_cast env IntegerColumn (JStr s)); [discriminate|].
    intros [= <-]; auto.
Qed.

(** A refused value raises a storage error or [OverflowError], nothing
    else. *)
Lemma column_values_raises (env : Env) (wd : Weather.t) (e : exn) :
  column_values env wd = Raise e -> e = SQLAlchemyError \/ e = OverflowError.
Proof.
  unfold column_values; intros H.
  apply and_then_raise in H as [H|(t & _ & H)];
    [left; eapply float_column_raises, H|].
  apply and_then_raise in H as [H|(h & _ & H)];
    [left; eapply float_column_raises, H|].
  apply and_then_raise in H as [H|(ws & _ & H)];
    [left; eapply float_column_raises, H|].
  apply and_then_raise in H as [H|(wdir & _ & H)];
    [left; eapply float_column_raises, H|].
  apply and_then_raise in H as [H|(code & _ & H)];
    [eapply integer_column_raises, H|].
  discriminate.
Qed.

Lemma new_row_raises (env : Env) (c : pystr) (wd : Weather.t) (w : World)
      (e : exn) :
  new_row env c wd w = Raise e -> e = SQLAlchemyError \/ e = OverflowError.
Proof.
  unfold new_row; intros H.
  apply and_then_raise in H as [H|(v & _ & H)];
    [eapply column_values_raises, H | discriminate].
Qed.


Lemma weather_handler_run {A} (e : exn) (w : World) :
  @weather_handler A e w = (Raise (at_boundary e), note (CounterInc "error") w).
Proof. destruct e; reflexivity. Qed.

(** The [try] block of the handler either raises with the metrics as they
    were, or returns with one success counted. *)
Lemma weather_body_metrics (env : Env) (c : pystr) (w : World) :
  match weather_body env c w with
  | (Ok _, w') => metrics w' = metrics w ++ [CounterInc "success"]
  | (Raise _, w') => metrics w' = metrics w
  end.
Proof.
  unfold weather_body, bind at 1.
  rewrite get_weather_from_openmeteo_run.
  destruct (upstream_result _ _) as [wd|e]; [|reflexivity].
  unfold bind at 1; rewrite insert_run; simpl steps.
  destruct (storage_fault env (S (steps w))); [reflexivity|].
  destruct (new_row env c wd _) as [row|e]; [|reflexivity].
  destruct (storage_fault env (S (S (steps w)))); reflexivity.
Qed.

(** The handler adds exactly two metric updates: the outcome counter, then
    the latency. *)
Lemma get_weather_by_city_metrics (env : Env) (c : pystr) (w : World) :
  exists latency,
    metrics (snd (get_weather_by_city env c w)) =
    metrics w ++
      [CounterInc (if is_ok (fst (get_weather_by_city env c w))
                   then "success" else "error");
       HistogramObserve latency].
Proof.
  unfold get_weather_by_city, try_finally, try_except.
  pose proof (weather_body_metrics env c w) as Hm.
  destruct (weather_body env c w) as [[r|e] w'].
  - simpl. eexists. rewrite Hm, <- app_assoc. reflexivity.
  - rewrite weather_handler_run. simpl. eexists.
    rewrite Hm, <- app_assoc. reflexivity.
Qed.


Lemma get_weather_by_city_log (env : Env) (c : pystr) (w : World) :
  http_log (snd (get_weather_by_city env c w)) =
  http_log (snd (get_weather_from_openmeteo env c w)).
Proof.
  unfold get_weather_by_city, try_finally, try_except, weather_body.
  unfold bind at 1.
  destruct (get_weather_from_openmeteo env c w) as [[wd|h] w1]; simpl snd.
  - unfold bind at 1. rewrite insert_run.
    destruct (storage_fault env (steps w1));
      [|destruct (new_row env c wd _) as [row|e];
        [destruct (storage_fault env (S (steps w1)))|]];
      try rewrite weather_handler_run; reflexivity.
  - rewrite weather_handler_run. reflexivity.
Qed.

(* ===================================================================== *)
(** ** Weather client: properties *)
(* ===================================================================== *)

Lemma read_forecast_ok (coords : Coordinates) (data : json) (wd : Weather.t) :
  read_forecast coords data = Ok wd ->
  exists current humidity,
    Py.getitem data (utf8 "current_weather") = Ok current
    /\ Py.getitem current (utf8 "weathercode") = Ok (Weather.weathercode wd)
    /\ Py.hashable (Weather.weathercode wd) = true
    /\ Weather.description wd = label_of (Weather.weathercode wd)
    /\ first_humidity data = Ok humidity
    /\ Weather.humidity wd = Py.or_ humidity (JInt 50)
    /\ Weather.coordinates wd = coords.
Proof.
  unfold read_forecast; intros H.
  destruct (Py.getitem data (utf8 "current_weather")) as [cur|]; [|discriminate].
  simpl in H.
  destruct (Py.getitem cur (utf8 "weathercode")) as [code|] eqn:Hc;
    [|discriminate].
  simpl in H. unfold Py.get in H.
  destruct (Py.hashable code) eqn:Hh; [|discriminate].
  simpl in H.
  destruct (first_humidity data) as [hum|]; [|discriminate].
  simpl in H.
  destruct (Py.getitem cur (utf8 "temperature")); [|discriminate].
  destruct (Py.getitem cur (utf8 "windspeed")); [|discriminate].
  destruct (Py.getitem cur (utf8 "winddirection")); [|discriminate].
  simpl in H. injection H as <-. simpl.
  exists cur, hum. repeat split; auto.
Qed.

Lemma fetch_ok (env : Env) (city : pystr) (w : World) (wd : Weather.t) :
  fst (get_weather_from_openmeteo env city w) = Ok wd ->
  exists s data,
    http_get env (steps w)
      (forecast_request (resolved (unicode_lower env) city))
    = Responds s (Some data)
    /\ error_status s = false
    /\ read_forecast (resolved (unicode_lower env) city) data = Ok wd.
Proof.
  rewrite get_weather_from_openmeteo_run; simpl fst.
  unfold upstream_result.
  destruct (http_get env (steps w) _) as [e|s [data|]]; try discriminate;
    destruct (error_status s) eqn:Es; try discriminate.
  destruct (read_forecast _ data) eqn:R; [|discriminate].
  intros [= ->]. eauto.
Qed.

(** C3 (as amended).  Whenever the client returns, the description is the
    label [WEATHER_CODES] holds for the code the provider sent, and the
    literal "Неизвестно" when the table has no such key; code 0 reads
    "Ясно" (clear sky). *)
Theorem description_decodes_weather_code :
  Py.get_int WEATHER_CODES (JInt 0) = Some (utf8 "Ясно")
  /\ forall (env : Env) (city : pystr) (w : World) (wd : Weather.t),
       fst (get_weather_from_openmeteo env city w) = Ok wd ->
       exists s data current,
         http_get env (steps w)
           (forecast_request (resolved (unicode_lower env) city))
         = Responds s (Some data)
         /\ Py.getitem data (utf8 "current_weather") = Ok current
         /\ Py.getitem current (utf8 "weathercode") = Ok (Weather.weathercode wd)
         /\ Weather.description wd =
            match Py.get_int WEATHER_CODES (Weather.weathercode wd) with
            | Some label => label
            | None => utf8 "Неизвестно"
            end.
Proof.
  split; [reflexivity|].
  intros env city w wd H.
  apply fetch_ok in H as (s & data & Hget & _ & Hread).
  apply read_forecast_ok in Hread as (cur & hum & H1 & H2 & _ & H3 & _).
  exists s, data, cur. auto.
Qed.

Lemma description_decodes_weather_code_witness :
  exists s data current,
    http_get (sample_env (Responds 200 (Some (forecast (JInt 3) None))) 5) 0
      (forecast_request (resolved (fun c => [c]) (utf8 "Tokyo")))
    = Responds s (Some data)
    /\ Py.getitem data (utf8 "current_weather") = Ok current
    /\ Py.getitem current (utf8 "weathercode") = Ok (JInt 3)
    /\ utf8 "Пасмурно" =
       match Py.get_int WEATHER_CODES (JInt 3) with
       | Some label => label
       | None => utf8 "Неизвестно"
       end.
Proof.
  apply (proj2 description_decodes_weather_code
           (sample_env (Responds 200 (Some (forecast (JInt 3) None))) 5)
           (utf8 "Tokyo") empty_world
           {| Weather.temperature := JFloat 21.5;
              Weather.humidity := JInt 50;
              Weather.description := utf8 "Пасмурно";
              Weather.windspeed := JFloat 3.4;
              Weather.winddirection := JInt 180;
              Weather.weathercode := JInt 3;
              Weather.coordinates := {| lat := 35.6762; lon := 139.6503 |} |}).
  reflexivity.
Defined.

(** C3, as stated, fails: code 4 is no key of the table, and the description
    is not the English word. *)
Lemma unknown_code_is_not_labelled_in_english :
  Py.get_int WEATHER_CODES (JInt 4) = None
  /\ exists wd,
       fst (get_weather_from_openmeteo
              (sample_env (Responds 200 (Some (forecast (JInt 4) None))) 5)
              (utf8 "Tokyo") empty_world) = Ok wd
       /\ Weather.weathercode wd = JInt 4
       /\ Weather.description wd <> utf8 "Unknown".
Proof.
  split; [reflexivity|].
  eexists; split; [reflexivity|].
  split; [reflexivity|].
  vm_compute; discriminate.
Qed.

(** The humidity the client returns is the first entry of the series when
    that entry is truthy, and 50 in every other case. *)
Lemma humidity_of_series (coords : Coordinates) (data : json) (wd : Weather.t)
      (fields hfields : list (pystr * json)) (x : json) (rest : list json) :
  read_forecast coords data = Ok wd ->
  data = JObj fields ->
  Py.assoc (utf8 "hourly") fields = Some (JObj hfields) ->
  Py.assoc (utf8 "relativehumidity_2m") hfields = Some (JArr (x :: rest)) ->
  Weather.humidity wd = if Py.truthy x then x else JInt 50.
Proof.
  intros H -> Hh Hs.
  apply read_forecast_ok in H as (_ & hum & _ & _ & _ & _ & Hf & -> & _).
  unfold first_humidity in Hf. simpl in Hf.
  rewrite Hh in Hf. simpl in Hf. rewrite Hs in Hf. simpl in Hf.
  injection Hf as <-. reflexivity.
Qed.

(** C1 fails on the code at a first entry of 0: the series is present and
    begins with 0, the humidity returned is 50 and the row, whose column
    is a float, stores 50.0. *)
Theorem zero_humidity_is_replaced_by_default :
  first_humidity (forecast (JInt 0) (Some (JArr [JInt 0; JInt 70])))
  = Ok (JInt 0)
  /\ exists reply w',
       get_weather_by_city
         (sample_env
            (Responds 200
               (Some (forecast (JInt 0) (Some (JArr [JInt 0; JInt 70]))))) 5)
         (utf8 "Paris") empty_world = (Ok reply, w')
       /\ Reply.humidity reply = JInt 50
       /\ map models.humidity (table w') = [JFloat 50].
Proof.
  split; [reflexivity|].
  eexists; eexists; split; [vm_compute; reflexivity|].
  split; reflexivity.
Qed.




(* ===================================================================== *)
(** ** Health probe and metrics: properties *)
(* ===================================================================== *)

Lemma health_check_run (env : Env) (w : World) :
  health_check env w =
  (Ok {| Health.status := "healthy";
         Health.api_status :=
           match http_get env (steps w) status_request with
           | Responds s _ => if s =? 200 then "healthy" else "unhealthy"
           | Fails _ => "unreachable"
           end;
         Health.provider := WEATHER_API_PROVIDER env;
         Health.timestamp := isoformat (now w + elapse env (steps w));
         Health.version := "1.0.0" |},
   log_request status_request (advance (elapse env (steps w)) w)).
Proof.
  unfold health_check, try_except, bind at 1.
  rewrite requests_get_run.
  destruct (http_get env (steps w) status_request) as [e|s b]; reflexivity.
Qed.

(** C5.  Whatever the probe comes to, [/health] returns, its top-level
    status is "healthy", and [api_status] tells the probe's outcome:
    "healthy" for status 200, "unhealthy" for any other status,
    "unreachable" when the GET raises. *)
Theorem health_is_always_healthy :
  forall (env : Env) (w : World),
    exists h,
      fst (health_check env w) = Ok h
      /\ Health.status h = "healthy"
      /\ Health.api_status h =
         match http_get env (steps w) status_request with
         | Responds s _ => if s =? 200 then "healthy" else "unhealthy"
         | Fails _ => "unreachable"
         end
      /\ http_log (snd (health_check env w)) = http_log w ++ [status_request].
Proof.
  intros env w. rewrite health_check_run.
  eexists; repeat split; reflexivity.
Qed.

Lemma counter_value_app (label : string) (l1 l2 : list metric_event) :
  counter_value label (l1 ++ l2)
  = (counter_value label l1 + counter_value label l2)%nat.
Proof. unfold counter_value. rewrite filter_app, length_app. reflexivity. Qed.

Lemma observations_app (l1 l2 : list metric_event) :
  observations (l1 ++ l2) = (observations l1 + observations l2)%nat.
Proof. unfold observations. rewrite filter_app, length_app. reflexivity. Qed.

(** C6.  A call of the weather handler adds two metric updates, the
    outcome counter first and the latency second.  So the histogram is
    observed once whether the call succeeds or fails, and a failed call
    raises the error counter by one, before the observation, and leaves the
    success counter alone. *)
Theorem failure_counts_one_error_then_latency :
  forall (env : Env) (c : pystr) (w : World),
    let out := get_weather_by_city env c w in
    (exists latency,
       metrics (snd out) =
       metrics w ++
         [CounterInc (if is_ok (fst out) then "success" else "error");
          HistogramObserve latency])
    /\ observations (metrics (snd out)) = S (observations (metrics w))
    /\ (is_ok (fst out) = false ->
        (exists latency,
           metrics (snd out) =
           metrics w ++ [CounterInc "error"; HistogramObserve latency])
        /\ counter_value "error" (metrics (snd out))
           = S (counter_value "error" (metrics w))
        /\ counter_value "success" (metrics (snd out))
           = counter_value "success" (metrics w)).
Proof.
  intros env c w out.
  destruct (get_weather_by_city_metrics env c w) as [latency Hm].
  fold out in Hm.
  split; [eauto|].
  split.
  { rewrite Hm, observations_app.
    change (observations [CounterInc _; HistogramObserve latency]) with 1%nat.
    lia. }
  intros Hfail. rewrite Hfail in Hm.
  split; [eauto|].
  rewrite Hm, !counter_value_app.
  change (counter_value "error" [CounterInc "error"; HistogramObserve latency])
    with 1%nat.
  change (counter_value "success"
            [CounterInc "error"; HistogramObserve latency]) with 0%nat.
  lia.
Qed.

Lemma failure_counts_one_error_then_latency_witness :
  counter_value "error"
    (metrics (snd (get_weather_by_city (sample_env (Fails Timeout) 5)
                     (utf8 "Paris") empty_world)))
  = S (counter_value "error" (metrics empty_world)).
Proof.
  apply (proj2 (proj2 (failure_counts_one_error_then_latency
                         (sample_env (Fails Timeout) 5)
                         (utf8 "Paris") empty_world))).
  reflexivity.
Defined.

(* ===================================================================== *)
(** ** Ordered rows and windows *)
(* ===================================================================== *)

Section Ordering.

Local Abbreviation row := models.WeatherRequest.

Lemma newest_first_trans (a b c : row) :
  newest_first a b -> newest_first b c -> newest_first a c.
Proof. unfold newest_first; lia. Qed.

Lemma sorted_strongly (l : list row) :
  Sorted newest_first l -> StronglySorted newest_first l.
Proof.
  apply Sorted_StronglySorted. intros a b c. apply newest_first_trans.
Qed.

Lemma strongly_sorted_skipn (n : nat) (l : list row) :
  StronglySorted newest_first l -> StronglySorted newest_first (skipn n l).
Proof.
  revert l; induction n as [|n IH]; intros [|x l] H; simpl; auto.
  apply IH. apply StronglySorted_inv in H. tauto.
Qed.

Lemma strongly_sorted_firstn (n : nat) (l : list row) :
  StronglySorted newest_first l -> StronglySorted newest_first (firstn n l).
Proof.
  revert l; induction n as [|n IH]; intros [|x l] H; simpl;
    try constructor.
  - apply IH. apply StronglySorted_inv in H. tauto.
  - apply StronglySorted_inv in H as [_ H].
    rewrite Forall_forall in *. intros y Hy. apply H.
    rewrite <- (firstn_skipn n l). apply in_or_app; auto.
Qed.

Lemma window_sorted (skip limit : Z) (l : list row) :
  StronglySorted newest_first l ->
  StronglySorted newest_first (window skip limit l).
Proof.
  intros H. apply strongly_sorted_firstn, strongly_sorted_skipn, H.
Qed.

Lemma window_length (skip limit : Z) (l : list row) :
  List.length (window skip limit l)
  = Nat.min (Z.to_nat limit) (List.length l - Z.to_nat skip).
Proof. unfold window. rewrite length_firstn, length_skipn. reflexivity. Qed.

Lemma window_incl (skip limit : Z) (l : list row) (r : row) :
  In r (window skip limit l) -> In r (skipn (Z.to_nat skip) l).
Proof.
  unfold window. intros H.
  rewrite <- (firstn_skipn (Z.to_nat limit) (skipn (Z.to_nat skip) l)).
  apply in_or_app; auto.
Qed.

(** A window that ends where another begins shares no row with it, when
    keys are not repeated. *)
Lemma windows_apart (n n' m : nat) (l : list row) (r r' : row) :
  NoDup (map models.id l) ->
  (n' + m <= n)%nat ->
  In r (skipn n l) ->
  In r' (firstn m (skipn n' l)) ->
  models.id r <> models.id r'.
Proof.
  intros Hnd Hle Hr Hr'.
  assert (H1 : In r' (firstn n l)).
  { rewrite firstn_skipn_comm in Hr'.
    assert (Hin : In r' (firstn (n' + m) l)).
    { rewrite <- (firstn_skipn n' (firstn (n' + m) l)).
      apply in_or_app; auto. }
    replace n with ((n' + m) + (n - (n' + m)))%nat by lia.
    rewrite <- (firstn_skipn (n' + m) l) at 1.
    rewrite firstn_app, length_firstn.
    apply in_or_app. left.
    destruct (Nat.le_gt_cases (n' + m) (List.length l)) as [Hl|Hl].
    - rewrite firstn_all2; [exact Hin|]. rewrite length_firstn. lia.
    - rewrite firstn_all2; [exact Hin|]. rewrite length_firstn. lia. }
  rewrite <- (firstn_skipn n l), map_app in Hnd.
  intros E.
  apply (in_map models.id) in H1, Hr.
  rewrite E in Hr. revert Hnd H1 Hr.
  generalize (map models.id (firstn n l)) (map models.id (skipn n l)).
  generalize (models.id r').
  intros k l1 l2 Hnd H1 H2.
  induction l1 as [|x l1 IH]; simpl in *; [contradiction|].
  apply NoDup_cons_iff in Hnd as [Hx Hnd].
  destruct H1 as [->|H1]; [|auto].
  apply Hx. apply in_or_app; auto.
Qed.

(** With no two rows of one timestamp, the newest-first order is unique. *)
Lemma sorted_perm_unique (l1 l2 : list row) :
  Permutation l1 l2 ->
  StronglySorted newest_first l1 -> StronglySorted newest_first l2 ->
  NoDup (map models.timestamp l1) ->
  l1 = l2.
Proof.
  revert l2; induction l1 as [|x l1 IH]; intros l2 Hp S1 S2 Hnd.
  - apply Permutation_nil in Hp. auto.
  - destruct l2 as [|y l2].
    { apply Permutation_sym, Permutation_nil in Hp. discriminate. }
    apply StronglySorted_inv in S1 as [S1 F1].
    apply StronglySorted_inv in S2 as [S2 F2].
    rewrite Forall_forall in F1, F2.
    inversion Hnd as [|? ? Hx Hnd']; subst.
    assert (E : x = y).
    { assert (Hy : In y (x :: l1))
        by (eapply Permutation_in; [apply Permutation_sym, Hp | left; auto]).
      assert (Hx' : In x (y :: l2))
        by (eapply Permutation_in; [apply Hp | left; auto]).
      destruct Hy as [Hy|Hy]; [auto|].
      destruct Hx' as [Hx'|Hx']; [auto|].
      exfalso. apply Hx.
      pose proof (F1 _ Hy) as A. pose proof (F2 _ Hx') as B.
      unfold newest_first in A, B.
      replace (models.timestamp x) with (models.timestamp y) by lia.
      apply in_map, Hy. }
    subst y. f_equal. apply IH; auto.
    eapply Permutation_cons_inv, Hp.
Qed.

(** A row newer than all others heads every newest-first order. *)
Lemma newest_on_top (t ordered : list row) (r : row) :
  Permutation (t ++ [r]) ordered ->
  StronglySorted newest_first ordered ->
  (forall x, In x t -> models.timestamp x < models.timestamp r) ->
  exists rest, ordered = r :: rest.
Proof.
  intros Hp Hs Hnew.
  destruct ordered as [|h rest].
  { apply Permutation_sym, Permutation_nil in Hp. destruct t; discriminate. }
  exists rest. f_equal.
  assert (Hh : In h (t ++ [r]))
    by (eapply Permutation_in; [apply Permutation_sym, Hp | left; auto]).
  assert (Hr : In r (h :: rest))
    by (eapply Permutation_in; [apply Hp | apply in_or_app; right; left; auto]).
  apply in_app_or in Hh as [Hh|[Hh|[]]]; [|auto].
  destruct Hr as [Hr|Hr]; [auto|].
  apply StronglySorted_inv in Hs as [_ F]. rewrite Forall_forall in F.
  pose proof (F _ Hr) as A. pose proof (Hnew _ Hh) as B.
  unfold newest_first in A. lia.
Qed.

Lemma insert_newest_first_perm (tie : row -> row -> bool) (r : row)
      (l : list row) :
  Permutation (r :: l) (insert_newest_first tie r l).
Proof.
  induction l as [|x l IH]; simpl; [auto|].
  destruct ((models.timestamp x <? models.timestamp r)
            || ((models.timestamp x =? models.timestamp r) && tie r x));
    [auto|].
  eapply perm_trans; [apply perm_swap|]. auto.
Qed.

(** Whatever the engine's order of ties, inserting keeps the list newest
    first. *)
Lemma insert_newest_first_sorted (tie : row -> row -> bool) (r : row)
      (l : list row) :
  Sorted newest_first l -> Sorted newest_first (insert_newest_first tie r l).
Proof.
  induction l as [|x l IH]; simpl; intros H.
  - repeat constructor.
  - destruct ((models.timestamp x <? models.timestamp r)
              || ((models.timestamp x =? models.timestamp r) && tie r x))
      eqn:E.
    + constructor; [exact H|]. constructor. unfold newest_first.
      apply orb_true_iff in E as [E|E]; [lia|].
      apply andb_true_iff in E as [E _]. lia.
    + apply orb_false_iff in E as [E _].
      apply Sorted_inv in H as [H Hd].
      constructor; [auto|].
      destruct l as [|y l]; simpl.
      * constructor. unfold newest_first. lia.
      * destruct ((models.timestamp y <? models.timestamp r)
                  || ((models.timestamp y =? models.timestamp r) && tie r y)).
        -- constructor. unfold newest_first. lia.
        -- constructor. apply HdRel_inv in Hd. exact Hd.
Qed.

Lemma sort_newest_first_perm (tie : row -> row -> bool) (l : list row) :
  Permutation l (sort_newest_first tie l).
Proof.
  induction l as [|r l IH]; simpl; [auto|].
  eapply perm_trans; [apply perm_skip, IH | apply insert_newest_first_perm].
Qed.

Lemma sort_newest_first_sorted (tie : row -> row -> bool) (l : list row) :
  Sorted newest_first (sort_newest_first tie l).
Proof.
  induction l as [|r l IH]; simpl; [constructor|].
  apply insert_newest_first_sorted, IH.
Qed.

End Ordering.

(** The ordering of every query is a rearrangement of the table that is
    newest first, whatever the engine does with ties. *)
Lemma engine_orders_holds (env : Env) : engine_orders env.
Proof.
  intros skip limit rows; unfold order_by_timestamp_desc.
  split; [apply sort_newest_first_perm | apply sort_newest_first_sorted].
Qed.

(* ===================================================================== *)
(** ** Persistence gateway: properties *)
(* ===================================================================== *)

Lemma listRecent_run (env : Env) (skip limit : Z) (w : World) :
  listRecent env skip limit w =
  (if storage_fault env (steps w) then Raise SQLAlchemyError
   else if (skip <? 0) || (limit <? 0)
        then negative_window env skip limit (table w)
        else if (int64_limit <=? skip) || (int64_limit <=? limit)
             then Raise OverflowError
             else Ok (window skip limit
                        (order_by_timestamp_desc env skip limit (table w))),
   advance (elapse env (steps w)) w).
Proof.
  unfold listRecent, bind, tick.
  destruct (storage_fault env (steps w)); [reflexivity|].
  simpl. destruct ((skip <? 0) || (limit <? 0)); [reflexivity|].
  destruct ((int64_limit <=? skip) || (int64_limit <=? limit)); reflexivity.
Qed.

Lemma get_history_run (env : Env) (skip limit : Z) (w : World) :
  get_history env skip limit w =
  (match fst (listRecent env skip limit w) with
   | Ok rows => Ok (map flatten rows)
   | Raise e => Raise e
   end,
   snd (listRecent env skip limit w)).
Proof.
  unfold get_history, bind.
  destruct (listRecent env skip limit w) as [[rows|e] w']; reflexivity.
Qed.

(** A query in range, on a storage that answers. *)
Lemma listRecent_in_range (env : Env) (skip limit : Z) (w : World) :
  0 <= skip < int64_limit -> 0 <= limit < int64_limit ->
  storage_fault env (steps w) = false ->
  fst (listRecent env skip limit w)
  = Ok (window skip limit (order_by_timestamp_desc env skip limit (table w))).
Proof.
  intros Hs Hl Hf. rewrite listRecent_run, Hf. simpl.
  replace (skip <? 0) with false by (symmetry; apply Z.ltb_ge; lia).
  replace (limit <? 0) with false by (symmetry; apply Z.ltb_ge; lia).
  replace (int64_limit <=? skip) with false
    by (symmetry; apply Z.leb_gt; lia).
  replace (int64_limit <=? limit) with false
    by (symmetry; apply Z.leb_gt; lia).
  reflexivity.
Qed.

(** A query that returned was in range. *)
Lemma listRecent_ok_in_range (env : Env) (skip limit : Z) (w : World)
      (rows : list models.WeatherRequest) :
  0 <= skip -> 0 <= limit ->
  fst (listRecent env skip limit w) = Ok rows ->
  skip < int64_limit /\ limit < int64_limit
  /\ storage_fault env (steps w) = false.
Proof.
  intros Hs Hl. rewrite listRecent_run. simpl.
  destruct (storage_fault env (steps w)); [discriminate|].
  replace (skip <? 0) with false by (symmetry; apply Z.ltb_ge; lia).
  replace (limit <? 0) with false by (symmetry; apply Z.ltb_ge; lia).
  simpl.
  destruct (int64_limit <=? skip) eqn:E1; [discriminate|].
  destruct (int64_limit <=? limit) eqn:E2; [discriminate|].
  apply Z.leb_gt in E1, E2. auto.
Qed.

(** C7 (as amended).  A query parameter the request leaves out takes its
    default, 0 for [skip] and 10 for [limit].  For [skip] and [limit] from
    0 up to, not including, [2^63], on a storage that answers, [/history/]
    returns: the rows are those of the table ordered newest first, less the
    first [skip], cut at [limit]; however far beyond the number of rows
    [skip] and [limit] are, the call returns, with
    [min limit (count - skip)] rows. *)
Theorem history_is_a_newest_first_window :
  forall (env : Env) (w : World),
    get_history_query env None None w = get_history env 0 10 w
    /\ forall (skip limit : Z),
         0 <= skip < int64_limit -> 0 <= limit < int64_limit ->
         storage_fault env (steps w) = false ->
         exists ordered page,
           Permutation (table w) ordered
           /\ StronglySorted newest_first ordered
           /\ page = firstn (Z.to_nat limit) (skipn (Z.to_nat skip) ordered)
           /\ fst (listRecent env skip limit w) = Ok page
           /\ fst (get_history_query env (Some skip) (Some limit) w)
              = Ok (map flatten page)
           /\ StronglySorted newest_first page
           /\ List.length page
              = Nat.min (Z.to_nat limit)
                  (List.length (table w) - Z.to_nat skip)
           /\ (List.length page <= Z.to_nat limit)%nat
           /\ table (snd (get_history_query env (Some skip) (Some limit) w))
              = table w.
Proof.
  intros env w. split; [reflexivity|].
  intros skip limit Hs Hl Hf.
  destruct (engine_orders_holds env skip limit (table w)) as [Hp Hsorted].
  apply sorted_strongly in Hsorted.
  pose proof (listRecent_in_range env w Hs Hl Hf) as Hrun.
  exists (order_by_timestamp_desc env skip limit (table w)).
  eexists. split; [exact Hp|]. split; [exact Hsorted|].
  split; [reflexivity|].
  split; [exact Hrun|].
  unfold get_history_query.
  split; [rewrite get_history_run, Hrun; reflexivity|].
  split; [apply window_sorted, Hsorted|].
  split.
  { fold (window skip limit (order_by_timestamp_desc env skip limit (table w))).
    rewrite window_length.
    rewrite <- (Permutation_length Hp). reflexivity. }
  split; [rewrite length_firstn; lia|].
  rewrite get_history_run, listRecent_run. reflexivity.
Qed.

Lemma history_is_a_newest_first_window_witness :
  exists ordered page,
    Permutation (table sample_world) ordered
    /\ StronglySorted newest_first ordered
    /\ page = firstn (Z.to_nat 5) (skipn (Z.to_nat 1) ordered)
    /\ fst (listRecent (sample_env (Fails Timeout) 5) 1 5 sample_world)
       = Ok page
    /\ fst (get_history_query (sample_env (Fails Timeout) 5)
              (Some 1) (Some 5) sample_world)
       = Ok (map flatten page)
    /\ StronglySorted newest_first page
    /\ List.length page
       = Nat.min (Z.to_nat 5)
           (List.length (table sample_world) - Z.to_nat 1)
    /\ (List.length page <= Z.to_nat 5)%nat
    /\ table (snd (get_history_query (sample_env (Fails Timeout) 5)
                     (Some 1) (Some 5) sample_world))
       = table sample_world.
Proof.
  apply (proj2 (history_is_a_newest_first_window
                  (sample_env (Fails Timeout) 5) sample_world) 1 5).
  - unfold int64_limit. lia.
  - unfold int64_limit. lia.
  - reflexivity.
Defined.

(** C7, as stated, fails: [2^63] is a skip, and a limit, that is not
    negative, the storage answers, and the query raises [OverflowError]. *)
Lemma history_overflows_from_two_to_the_63 :
  0 <= int64_limit
  /\ storage_fault (sample_env (Fails Timeout) 5) (steps sample_world) = false
  /\ fst (get_history (sample_env (Fails Timeout) 5) int64_limit 10
            sample_world)
     = Raise OverflowError
  /\ fst (get_history (sample_env (Fails Timeout) 5) 0 int64_limit
            sample_world)
     = Raise OverflowError.
Proof.
  split; [unfold int64_limit; lia|]. repeat split; reflexivity.
Qed.

(** C8 (as amended).  On one table, with keys not repeated, whenever a
    query at skip [N] and a query at a smaller skip [N'] with the same limit
    [M] both return, the later one returns at most [M] rows and none of the
    rows of the earlier one, provided the later window begins where the
    earlier one ends or after it ([N' + M <= N]) and the engine orders the
    table alike for the two queries, as it must when no two rows have the
    same timestamp.  Both queries do return when [N] and [M] are below
    [2^63] and the storage answers. *)
Theorem later_page_repeats_no_row :
  forall (env : Env) (w w' : World) (M N N' : Z),
    table w' = table w ->
    NoDup (map models.id (table w)) ->
    NoDup (map models.timestamp (table w))
    \/ order_by_timestamp_desc env N M (table w)
       = order_by_timestamp_desc env N' M (table w) ->
    0 <= M -> 0 <= N' -> N' + M <= N ->
    (forall earlier later,
        fst (listRecent env N' M w) = Ok earlier ->
        fst (listRecent env N M w') = Ok later ->
        (List.length later <= Z.to_nat M)%nat
        /\ forall r r', In r later -> In r' earlier ->
                        models.id r <> models.id r')
    /\ (M < int64_limit -> N < int64_limit ->
        storage_fault env (steps w) = false ->
        storage_fault env (steps w') = false ->
        exists earlier later,
          fst (listRecent env N' M w) = Ok earlier
          /\ fst (listRecent env N M w') = Ok later).
Proof.
  intros env w w' M N N' Htab Hid Hsame HM HN' Hle.
  assert (HN : 0 <= N) by lia.
  split.
  - intros earlier later L1 L2.
    destruct (@listRecent_ok_in_range _ _ _ _ _ HN' HM L1) as (B1 & B2 & F1).
    destruct (@listRecent_ok_in_range _ _ _ _ _ HN HM L2) as (B3 & B4 & F2).
    rewrite listRecent_in_range in L1, L2 by (assumption || lia).
    injection L1 as <-. injection L2 as <-. rewrite Htab.
    pose proof (engine_orders_holds env) as Heng.
    destruct (Heng N M (table w)) as [Hp Hs].
    destruct (Heng N' M (table w)) as [Hp' Hs'].
    assert (E : order_by_timestamp_desc env N M (table w)
                = order_by_timestamp_desc env N' M (table w)).
    { destruct Hsame as [Hts|E]; [|exact E].
      apply sorted_perm_unique.
      - eapply perm_trans; [apply Permutation_sym, Hp | exact Hp'].
      - apply sorted_strongly, Hs.
      - apply sorted_strongly, Hs'.
      - eapply Permutation_NoDup; [|exact Hts].
        apply Permutation_map, Hp. }
    split; [unfold window; rewrite length_firstn; lia|].
    intros r r' Hr Hr'. rewrite E in Hr.
    apply window_incl in Hr. unfold window in Hr'.
    apply (@windows_apart (Z.to_nat N) (Z.to_nat N') (Z.to_nat M)
             (order_by_timestamp_desc env N' M (table w)) r r');
      [|lia|exact Hr|exact Hr'].
    eapply Permutation_NoDup; [|exact Hid]. apply Permutation_map, Hp'.
  - intros BM BN Hf Hf'.
    rewrite (@listRecent_in_range env N' M w) by (assumption || lia).
    rewrite (@listRecent_in_range env N M w') by (assumption || lia).
    eauto.
Qed.

Lemma later_page_repeats_no_row_witness :
  exists earlier later,
    fst (listRecent (sample_env (Fails Timeout) 5) 0 2 sample_world)
    = Ok earlier
    /\ fst (listRecent (sample_env (Fails Timeout) 5) 2 2 sample_world)
       = Ok later
    /\ (List.length later <= Z.to_nat 2)%nat
    /\ forall r r', In r later -> In r' earlier ->
                    models.id r <> models.id r'.
Proof.
  assert (Hid : NoDup (map models.id (table sample_world)))
    by (repeat constructor; simpl; intuition discriminate).
  destruct (@later_page_repeats_no_row
              (sample_env (Fails Timeout) 5) sample_world sample_world 2 2 0
              eq_refl Hid (or_intror eq_refl))
    as [Hpages Hreturn]; [lia | lia | lia |].
  destruct Hreturn as (earlier & later & He & Hl);
    [unfold int64_limit; lia | unfold int64_limit; lia
     | reflexivity | reflexivity |].
  exists earlier, later. split; [exact He|]. split; [exact Hl|].
  exact (Hpages earlier later He Hl).
Defined.

(** C8, as stated, fails: of three stored rows, the query at skip 1 and the
    query at the smaller skip 0, both with limit 2, return the row of key
    2. *)
Lemma overlapping_windows_share_a_row :
  0 < 1
  /\ fst (listRecent (sample_env (Fails Timeout) 5) 0 2 sample_world)
     = Ok [sample_row 3 300; sample_row 2 200]
  /\ fst (listRecent (sample_env (Fails Timeout) 5) 1 2 sample_world)
     = Ok [sample_row 2 200; sample_row 1 100].
Proof. split; [lia|]. split; reflexivity. Qed.

(** C9 (as amended).  On a storage that answers and whose columns take
    the values, the insert returns the row it stored, with the key the
    engine gave and the timestamp the clock showed at the flush.  The
    timestamp is not earlier than the start of the insert when the clock did
    not step back meanwhile; and when it is later than every stored
    timestamp, the query for the newest row, run next, returns that row. *)
Theorem insert_then_newest_is_the_insert :
  forall (env : Env) (w : World) (c : pystr) (wd : Weather.t) (v : Stored.t),
    storage_fault env (steps w) = false ->
    storage_fault env (S (steps w)) = false ->
    column_values env wd = Ok v ->
    exists row w1,
      insert env c wd w = (Ok row, w1)
      /\ table w1 = table w ++ [row]
      /\ models.id row = next_id env (table w)
      /\ models.timestamp row = now w + elapse env (steps w)
      /\ models.city row = c
      /\ models.temperature row = Stored.temperature v
      /\ models.humidity row = Stored.humidity v
      /\ models.description row = Weather.description wd
      /\ (0 <= elapse env (steps w) -> now w <= models.timestamp row)
      /\ (storage_fault env (steps w1) = false ->
          (forall r, In r (table w) ->
                     models.timestamp r < models.timestamp row) ->
          fst (listRecent env 0 1 w1) = Ok [row]).
Proof.
  intros env w c wd v F1 F2 Hv.
  rewrite insert_run, F1. cbv zeta.
  rewrite (@new_row_of_values env c wd (advance (elapse env (steps w)) w) v Hv),
    F2.
  do 2 eexists. split; [reflexivity|].
  repeat (split; [reflexivity|]).
  split; [simpl; lia|].
  intros F3 Hnew.
  rewrite listRecent_in_range by (assumption || unfold int64_limit; lia).
  match goal with
  | |- context [table (advance _ (store ?r _))] => set (row := r) in *
  end.
  change (table (advance (elapse env (S (steps w)))
                   (store row (advance (elapse env (steps w)) w))))
    with (table w ++ [row]).
  destruct (engine_orders_holds env 0 1 (table w ++ [row])) as [Hp Hs].
  destruct (newest_on_top (table w) row Hp (sorted_strongly Hs) Hnew)
    as [rest ->].
  reflexivity.
Qed.

Lemma insert_then_newest_is_the_insert_witness :
  exists row w1,
    insert (sample_env (Fails Timeout) 5) (utf8 "Rome") sample_weather
      sample_world = (Ok row, w1)
    /\ fst (listRecent (sample_env (Fails Timeout) 5) 0 1 w1) = Ok [row].
Proof.
  destruct (@insert_then_newest_is_the_insert
              (sample_env (Fails Timeout) 5) sample_world (utf8 "Rome")
              sample_weather
              {| Stored.temperature := JFloat 21.5;
                 Stored.humidity := JFloat 65;
                 Stored.windspeed := JFloat 3.4;
                 Stored.winddirection := JFloat 180;
                 Stored.weathercode := JInt 0 |}
              eq_refl eq_refl eq_refl)
    as (row & w1 & Hrun & Htab & Hid & Hts & H).
  exists row, w1. split; [exact Hrun|].
  apply H.
  - reflexivity.
  - rewrite Hts. simpl.
    intros r [<-|[<-|[<-|[]]]]; simpl; lia.
Defined.

(** C9, as stated, fails: the wall clock is set back after a first insert;
    the second insert stores a row whose timestamp is earlier than the
    start of that insert, and the query for the newest row returns the
    first row. *)
Lemma clock_set_back_hides_the_insert :
  exists first w1 second w2,
    insert (set_clock (sample_env (Fails Timeout) 0)
              (fun k => if (k <? 2)%nat then 5 else -1000))
      (utf8 "Paris") sample_weather empty_world = (Ok first, w1)
    /\ insert (set_clock (sample_env (Fails Timeout) 0)
                 (fun k => if (k <? 2)%nat then 5 else -1000))
         (utf8 "Rome") sample_weather w1 = (Ok second, w2)
    /\ models.id first = 1 /\ models.id second = 2
    /\ models.timestamp second < now w1
    /\ fst (listRecent (set_clock (sample_env (Fails Timeout) 0)
                          (fun k => if (k <? 2)%nat then 5 else -1000))
              0 1 w2) = Ok [first].
Proof.
  do 4 eexists. split; [reflexivity|]. split; [reflexivity|].
  repeat split; reflexivity.
Qed.

(* ===================================================================== *)
(** ** The weather handler, step by step *)
(* ===================================================================== *)

(** The reply of a request that succeeded: the weather, the stored row's
    key, and the clock after the refresh. *)
Lemma get_weather_by_city_run (env : Env) (c : pystr) (w : World) :
  let k := steps w in
  let coords := resolved (unicode_lower env) c in
  let req := forecast_request coords in
  let w1 := log_request req (advance (elapse env k) w) in
  let observed w' :=
    note (HistogramObserve
            (PrimFloat.sub (time_time env (now w')) (time_time env (now w))))
      w' in
  let failed e w' :=
    (@Raise Reply.t (at_boundary e), observed (note (CounterInc "error") w')) in
  get_weather_by_city env c w =
  match upstream_result coords (http_get env k req) with
  | Raise e => failed (fetch_handler e) w1
  | Ok wd =>
      let w2 := advance (elapse env (S k)) w1 in
      if storage_fault env (S k) then failed SQLAlchemyError w2
      else
        match new_row env c wd w2 with
        | Raise e => failed e w2
        | Ok row =>
            let w3 := advance (elapse env (S (S k))) (store row w2) in
            if storage_fault env (S (S k)) then failed SQLAlchemyError w3
            else
              (Ok {| Reply.city := c;
                     Reply.temperature := Weather.temperature wd;
                     Reply.humidity := Weather.humidity wd;
                     Reply.description := Weather.description wd;
                     Reply.windspeed := Weather.windspeed wd;
                     Reply.winddirection := Weather.winddirection wd;
                     Reply.weathercode := Weather.weathercode wd;
                     Reply.coordinates := Weather.coordinates wd;
                     Reply.provider := WEATHER_API_PROVIDER env;
                     Reply.timestamp := now w3;
                     Reply.id := models.id row |},
               observed (note (CounterInc "success") w3))
        end
  end.
Proof.
  intros k coords req w1 observed failed.
  unfold get_weather_by_city, try_finally, try_except, weather_body.
  unfold bind at 1. rewrite get_weather_from_openmeteo_run.
  fold k coords req w1.
  destruct (upstream_result coords (http_get env k req)) as [wd|e].
  - unfold bind at 1. rewrite insert_run.
    change (steps w1) with (S k).
    destruct (storage_fault env (S k)).
    + rewrite weather_handler_run. reflexivity.
    + cbv zeta. destruct (new_row env c wd _) as [row|e].
      * destruct (storage_fault env (S (S k))).
        -- rewrite weather_handler_run. reflexivity.
        -- reflexivity.
      * rewrite weather_handler_run. reflexivity.
  - rewrite weather_handler_run. reflexivity.
Qed.

Lemma getitem_raises_key_or_type (v : json) (key : pystr) (e : exn) :
  Py.getitem v key = Raise e -> e = TypeError \/ exists k, e = KeyError k.
Proof.
  destruct v; simpl; try (intros [= <-]; auto).
  destruct (Py.assoc key fields); intros [= <-]; eauto.
Qed.

Lemma first_humidity_raises_key_or_type (data : json) (e : exn) :
  first_humidity data = Raise e -> e = TypeError \/ exists k, e = KeyError k.
Proof.
  unfold first_humidity; intros H.
  apply and_then_raise in H as [H|(b1 & _ & H)].
  { destruct data; simpl in H; try discriminate; injection H as <-; auto. }
  destruct b1; simpl in H; [|discriminate].
  apply and_then_raise in H as [H|(h & _ & H)];
    [eapply getitem_raises_key_or_type, H|].
  apply and_then_raise in H as [H|(b2 & _ & H)].
  { destruct h; simpl in H; try discriminate; injection H as <-; auto. }
  destruct b2; simpl in H; [|discriminate].
  apply and_then_raise in H as [H|(hs & _ & H)];
    [eapply getitem_raises_key_or_type, H|].
  destruct (Py.truthy hs) eqn:T; [|discriminate].
  destruct hs as [| | | |[|ch s]|[|x l]|d]; simpl in T, H; try discriminate;
    injection H as <-; eauto.
Qed.

(** Reading a decoded body raises [KeyError] or [TypeError], nothing
    else. *)
Lemma read_forecast_raises_key_or_type
      (coords : Coordinates) (data : json) (e : exn) :
  read_forecast coords data = Raise e ->
  e = TypeError \/ exists k, e = KeyError k.
Proof.
  unfold read_forecast; intros H.
  apply and_then_raise in H as [H|(cur & _ & H)];
    [eapply getitem_raises_key_or_type, H|].
  apply and_then_raise in H as [H|(code & _ & H)];
    [eapply getitem_raises_key_or_type, H|].
  apply and_then_raise in H as [H|(desc & _ & H)].
  { unfold Py.get in H. destruct (Py.hashable code); [discriminate|].
    injection H as <-; auto. }
  apply and_then_raise in H as [H|(hum & _ & H)];
    [eapply first_humidity_raises_key_or_type, H|].
  apply and_then_raise in H as [H|(temp & _ & H)];
    [eapply getitem_raises_key_or_type, H|].
  apply and_then_raise in H as [H|(ws & _ & H)];
    [eapply getitem_raises_key_or_type, H|].
  apply and_then_raise in H as [H|(wdir & _ & H)];
    [eapply getitem_raises_key_or_type, H|].
  discriminate.
Qed.

Lemma upstream_result_raises (coords : Coordinates) (a : upstream_outcome)
      (e : exn) :
  upstream_result coords a = Raise e ->
  (exists r, e = RequestException r)
  \/ e = TypeError \/ exists k, e = KeyError k.
Proof.
  unfold upstream_result.
  destruct a as [r|s [data|]]; [intros [= <-]; eauto| |];
    destruct (error_status s); try (intros [= <-]; eauto).
  intros H. right. eapply read_forecast_raises_key_or_type, H.
Qed.

Lemma upstream_result_ok (coords : Coordinates) (a : upstream_outcome)
      (wd : Weather.t) :
  upstream_result coords a = Ok wd ->
  exists s data, a = Responds s (Some data) /\ error_status s = false
                 /\ read_forecast coords data = Ok wd.
Proof.
  unfold upstream_result.
  destruct a as [r|s [data|]]; [discriminate| |];
    destruct (error_status s) eqn:E; try discriminate.
  intros H. exists s, data. auto.
Qed.

(* ===================================================================== *)
(** ** Weather client and handler: further properties *)
(* ===================================================================== *)



(** X2.  A request that fails raises an HTTP exception of status 503 or
    500, never anything else; the status is 503 only when the fetch itself
    failed with 503. *)
Theorem handler_raises_only_503_or_500 :
  forall (env : Env) (c : pystr) (w : World) (e : exn),
    fst (get_weather_by_city env c w) = Raise e ->
    exists s d cause,
      e = HTTPException s d cause
      /\ (s = 500
          \/ s = 503
             /\ fst (get_weather_from_openmeteo env c w) = Raise e).
Proof.
  intros env c w e.
  rewrite get_weather_by_city_run, get_weather_from_openmeteo_run.
  cbv zeta.
  destruct (upstream_result _ _) as [wd|e0] eqn:U.
  - destruct (storage_fault env (S (steps w)));
      [simpl; intros [= <-]; eauto 6|].
    destruct (new_row env c wd _) as [row|e1] eqn:R.
    + destruct (storage_fault env (S (S (steps w))));
        simpl; intros [= <-]; eauto 6.
    + simpl. intros [= <-].
      apply new_row_raises in R as [->| ->]; simpl; eauto 6.
  - simpl. intros [= <-].
    apply upstream_result_raises in U as [[r ->]|[->|[k ->]]]; simpl;
      eauto 8.
Qed.

Lemma handler_raises_only_503_or_500_witness :
  exists s d cause,
    HTTPException 503 "Ошибка при запросе к API погоды: "
      (Some (RequestException Timeout))
    = HTTPException s d cause
    /\ (s = 500
        \/ s = 503
           /\ fst (get_weather_from_openmeteo (sample_env (Fails Timeout) 5)
                     (utf8 "Paris") empty_world)
              = Raise (HTTPException 503 "Ошибка при запросе к API погоды: "
                         (Some (RequestException Timeout)))).
Proof.
  apply (@handler_raises_only_503_or_500
           (sample_env (Fails Timeout) 5) (utf8 "Paris") empty_world).
  reflexivity.
Defined.

(** X3.  When the fetch fails, the request stores nothing: the table is
    as it was, and the GET was the only external operation. *)
Theorem failed_fetch_stores_nothing :
  forall (env : Env) (c : pystr) (w : World) (h : exn),
    fst (get_weather_from_openmeteo env c w) = Raise h ->
    table (snd (get_weather_by_city env c w)) = table w
    /\ steps (snd (get_weather_by_city env c w)) = S (steps w).
Proof.
  intros env c w h.
  rewrite get_weather_by_city_run, get_weather_from_openmeteo_run.
  cbv zeta.
  destruct (upstream_result _ _) as [wd|e0]; [discriminate|].
  intros _. split; reflexivity.
Qed.

Lemma failed_fetch_stores_nothing_witness :
  table (snd (get_weather_by_city (sample_env (Responds 500 None) 5)
                (utf8 "Paris") sample_world))
  = table sample_world
  /\ steps (snd (get_weather_by_city (sample_env (Responds 500 None) 5)
                   (utf8 "Paris") sample_world))
     = S (steps sample_world).
Proof.
  apply (@failed_fetch_stores_nothing
           (sample_env (Responds 500 None) 5) (utf8 "Paris") sample_world
           (HTTPException 503 "Ошибка при запросе к API погоды: "
              (Some (RequestException (HTTPError 500))))).
  reflexivity.
Defined.



(** X5.  After a fetch that succeeded, a flush that fails stores nothing,
    and neither does a flush whose columns refuse a value; but a refresh
    that fails comes after the commit: the request fails with InternalError
    and 500, an error is counted, and the row, with the values the columns
    accepted, is in the table all the same. *)
Theorem storage_failure_after_commit_keeps_the_row :
  forall (env : Env) (c : pystr) (w : World) (wd : Weather.t),
    fst (get_weather_from_openmeteo env c w) = Ok wd ->
    (storage_fault env (S (steps w)) = true ->
     table (snd (get_weather_by_city env c w)) = table w
     /\ fails_with (fst (get_weather_by_city env c w)) InternalError 500)
    /\ (forall e,
          storage_fault env (S (steps w)) = false ->
          column_values env wd = Raise e ->
          table (snd (get_weather_by_city env c w)) = table w
          /\ fails_with (fst (get_weather_by_city env c w)) InternalError 500)
    /\ (forall v,
          storage_fault env (S (steps w)) = false ->
          column_values env wd = Ok v ->
          storage_fault env (S (S (steps w))) = true ->
          (exists row,
             table (snd (get_weather_by_city env c w)) = table w ++ [row]
             /\ models.city row = c
             /\ models.humidity row = Stored.humidity v)
          /\ fails_with (fst (get_weather_by_city env c w)) InternalError 500
          /\ counter_value "error"
               (metrics (snd (get_weather_by_city env c w)))
             = S (counter_value "error" (metrics w))).
Proof.
  intros env c w wd.
  rewrite get_weather_by_city_run, get_weather_from_openmeteo_run.
  cbv zeta. simpl fst.
  destruct (upstream_result _ _) as [wd'|e0]; [|discriminate].
  intros [= ->]. split; [|split].
  - intros ->. split; [reflexivity|]. do 2 eexists; split; reflexivity.
  - intros e -> He.
    assert (N : forall w', new_row env c wd w' = Raise e)
      by (intros w'; unfold new_row; rewrite He; reflexivity).
    rewrite N. split; [reflexivity|].
    apply column_values_raises in He as [->| ->];
      do 2 eexists; split; reflexivity.
  - intros v -> Hv ->. rewrite (@new_row_of_values env c wd _ v Hv).
    split; [eexists; repeat split; reflexivity|].
    split; [do 2 eexists; split; reflexivity|].
    simpl. rewrite <- app_assoc, counter_value_app. simpl app.
    change (counter_value "error" [CounterInc "error"; HistogramObserve _])
      with 1%nat.
    lia.
Qed.

Lemma storage_failure_after_commit_keeps_the_row_witness :
  exists row,
    table (snd (get_weather_by_city
                  (set_storage_fault
                     (sample_env
                        (Responds 200 (Some (forecast (JInt 0) None))) 5)
                     (fun k => Nat.eqb k 2))
                  (utf8 "Paris") empty_world))
    = table empty_world ++ [row]
    /\ models.city row = utf8 "Paris"
    /\ models.humidity row = JFloat 50.
Proof.
  apply (proj2 (proj2 (@storage_failure_after_commit_keeps_the_row
                  (set_storage_fault
                     (sample_env
                        (Responds 200 (Some (forecast (JInt 0) None))) 5)
                     (fun k => Nat.eqb k 2))
                  (utf8 "Paris") empty_world
                  {| Weather.temperature := JFloat 21.5;
                     Weather.humidity := JInt 50;
                     Weather.description := utf8 "Ясно";
                     Weather.windspeed := JFloat 3.4;
                     Weather.winddirection := JInt 180;
                     Weather.weathercode := JInt 0;
                     Weather.coordinates :=
                       {| lat := 48.8566; lon := 2.3522 |} |}
                  eq_refl))
               {| Stored.temperature := JFloat 21.5;
                  Stored.humidity := JFloat 50;
                  Stored.windspeed := JFloat 3.4;
                  Stored.winddirection := JFloat 180;
                  Stored.weathercode := JInt 0 |}
               eq_refl eq_refl eq_refl).
Defined.

(** X6.  The weather handler never removes or rewrites a stored row:
    whatever happens, the table afterwards is the table before followed by
    at most one new row. *)
Theorem weather_handler_only_appends :
  forall (env : Env) (c : pystr) (w : World),
    exists added,
      table (snd (get_weather_by_city env c w)) = table w ++ added
      /\ (List.length added <= 1)%nat.
Proof.
  intros env c w. rewrite get_weather_by_city_run. cbv zeta.
  destruct (upstream_result _ _) as [wd|e0].
  - destruct (storage_fault env (S (steps w))).
    + exists []. simpl. rewrite app_nil_r. auto.
    + destruct (new_row env c wd _) as [row|e1].
      * destruct (storage_fault env (S (S (steps w))));
          eexists; split; try reflexivity; simpl; lia.
      * exists []. simpl. rewrite app_nil_r. auto.
  - exists []. simpl. rewrite app_nil_r. auto.
Qed.

Lemma or_50_truthy (h : json) : Py.truthy (Py.or_ h (JInt 50)) = true.
Proof. unfold Py.or_. destruct (Py.truthy h) eqn:T; [exact T | reflexivity]. Qed.

(** X7.  The humidity a fetch returns is never falsy: it is never [None],
    never 0 and never an empty value, because [humidity or 50] replaces
    each of them by 50. *)
Theorem fetched_humidity_is_truthy :
  forall (env : Env) (city : pystr) (w : World) (wd : Weather.t),
    fst (get_weather_from_openmeteo env city w) = Ok wd ->
    Py.truthy (Weather.humidity wd) = true
    /\ Weather.humidity wd <> JNull
    /\ Weather.humidity wd <> JInt 0
    /\ Weather.humidity wd <> JArr [].
Proof.
  intros env city w wd H.
  apply fetch_ok in H as (s & data & _ & _ & R).
  apply read_forecast_ok in R as (_ & hum & _ & _ & _ & _ & _ & Hh & _).
  assert (T : Py.truthy (Weather.humidity wd) = true)
    by (rewrite Hh; apply or_50_truthy).
  split; [exact T|].
  repeat split; intros E; rewrite E in T; discriminate.
Qed.

Lemma fetched_humidity_is_truthy_witness :
  Py.truthy (JInt 50) = true
  /\ JInt 50 <> JNull /\ JInt 50 <> JInt 0 /\ JInt 50 <> JArr [].
Proof.
  apply (@fetched_humidity_is_truthy
           (sample_env
              (Responds 200
                 (Some (forecast (JInt 0) (Some (JArr [JNull; JInt 70]))))) 5)
           (utf8 "Paris") empty_world
           {| Weather.temperature := JFloat 21.5;
              Weather.humidity := JInt 50;
              Weather.description := utf8 "Ясно";
              Weather.windspeed := JFloat 3.4;
              Weather.winddirection := JInt 180;
              Weather.weathercode := JInt 0;
              Weather.coordinates := {| lat := 48.8566; lon := 2.3522 |} |}).
  reflexivity.
Defined.

(** X8.  When the body has no [hourly] block, or the block has no
    humidity series, or the series is an empty array, a fetch that returns
    returns humidity 50. *)
Theorem missing_or_empty_series_gives_50 :
  forall (env : Env) (city : pystr) (w : World) (wd : Weather.t)
         (s : Z) (fields : list (pystr * json)),
    fst (get_weather_from_openmeteo env city w) = Ok wd ->
    http_get env (steps w)
      (forecast_request (resolved (unicode_lower env) city))
    = Responds s (Some (JObj fields)) ->
    Py.assoc (utf8 "hourly") fields = None
    \/ (exists hfields,
          Py.assoc (utf8 "hourly") fields = Some (JObj hfields)
          /\ (Py.assoc (utf8 "relativehumidity_2m") hfields = None
              \/ Py.assoc (utf8 "relativehumidity_2m") hfields
                 = Some (JArr []))) ->
    Weather.humidity wd = JInt 50.
Proof.
  intros env city w wd s fields H Hget Hcase.
  apply fetch_ok in H as (s' & data & Hget' & _ & R).
  rewrite Hget in Hget'. injection Hget' as _ <-.
  apply read_forecast_ok in R as (_ & hum & _ & _ & _ & _ & Hf & -> & _).
  unfold first_humidity in Hf. simpl in Hf.
  destruct Hcase as [Hn|(hf & Hh & [Hn|He])].
  - rewrite Hn in Hf. simpl in Hf. injection Hf as <-. reflexivity.
  - rewrite Hh in Hf. simpl in Hf. rewrite Hn in Hf. simpl in Hf.
    injection Hf as <-. reflexivity.
  - rewrite Hh in Hf. simpl in Hf. rewrite He in Hf. simpl in Hf.
    injection Hf as <-. reflexivity.
Qed.

Lemma missing_or_empty_series_gives_50_witness :
  Weather.humidity
    {| Weather.temperature := JFloat 21.5;
       Weather.humidity := JInt 50;
       Weather.description := utf8 "Ясно";
       Weather.windspeed := JFloat 3.4;
       Weather.winddirection := JInt 180;
       Weather.weathercode := JInt 0;
       Weather.coordinates := {| lat := 48.8566; lon := 2.3522 |} |}
  = JInt 50.
Proof.
  apply (@missing_or_empty_series_gives_50
           (sample_env
              (Responds 200 (Some (forecast (JInt 0) (Some (JArr []))))) 5)
           (utf8 "Paris") empty_world
           {| Weather.temperature := JFloat 21.5;
              Weather.humidity := JInt 50;
              Weather.description := utf8 "Ясно";
              Weather.windspeed := JFloat 3.4;
              Weather.winddirection := JInt 180;
              Weather.weathercode := JInt 0;
              Weather.coordinates := {| lat := 48.8566; lon := 2.3522 |} |}
           200
           [ (utf8 "current_weather",
              JObj [ (utf8 "temperature", JFloat 21.5);
                     (utf8 "windspeed", JFloat 3.4);
                     (utf8 "winddirection", JInt 180);
                     (utf8 "weathercode", JInt 0) ]);
             (utf8 "hourly",
              JObj [ (utf8 "relativehumidity_2m", JArr []) ]) ]).
  - reflexivity.
  - reflexivity.
  - right. eexists. split; [reflexivity|]. right. reflexivity.
Defined.

(** X9.  A city that is not in the table is not refused: the GET asks for
    the default pair, Moscow's, and a reply that comes back carries the
    caller's city name together with Moscow's coordinates. *)
Theorem unknown_city_is_served_moscow :
  forall (env : Env) (c : pystr) (w : World),
    dict_contains CITY_COORDINATES (strip (lower (unicode_lower env) c))
    = false ->
    http_log (snd (get_weather_by_city env c w))
    = http_log w ++ [forecast_request default_coordinates]
    /\ forall reply,
         fst (get_weather_by_city env c w) = Ok reply ->
         Reply.city reply = c
         /\ Reply.coordinates reply = default_coordinates.
Proof.
  intros env c w Hunknown.
  assert (Hr : resolved (unicode_lower env) c = default_coordinates).
  { unfold resolved. unfold dict_contains in Hunknown.
    destruct (Py.assoc _ CITY_COORDINATES); [discriminate|reflexivity]. }
  split.
  - rewrite get_weather_by_city_log, get_weather_from_openmeteo_run, Hr.
    reflexivity.
  - intros reply. rewrite get_weather_by_city_run. cbv zeta.
    destruct (upstream_result _ _) as [wd|e0] eqn:U; [|discriminate].
    destruct (storage_fault env (S (steps w))); [discriminate|].
    destruct (new_row env c wd _) as [row|e1]; [|discriminate].
    destruct (storage_fault env (S (S (steps w)))); [discriminate|].
    simpl. intros [= <-]. simpl.
    apply upstream_result_ok in U as (s & data & _ & _ & R).
    apply read_forecast_ok in R as (_ & _ & _ & _ & _ & _ & _ & _ & Hc).
    rewrite Hc, Hr. auto.
Qed.

Lemma unknown_city_is_served_moscow_witness :
  http_log (snd (get_weather_by_city
                   (sample_env (Responds 200 (Some (forecast (JInt 0) None))) 5)
                   (utf8 "Atlantis") empty_world))
  = http_log empty_world ++ [forecast_request default_coordinates].
Proof.
  apply (@unknown_city_is_served_moscow
           (sample_env (Responds 200 (Some (forecast (JInt 0) None))) 5)
           (utf8 "Atlantis") empty_world).
  reflexivity.
Defined.

(* ===================================================================== *)
(** ** History and health: further properties *)
(* ===================================================================== *)

(** X10.  The history and health endpoints only read: whatever their
    arguments and whatever the storage or the provider does, the table and
    the metrics are as before, and the history issues no GET. *)
Theorem history_and_health_only_read :
  forall (env : Env) (skip limit : Z) (w : World),
    table (snd (get_history env skip limit w)) = table w
    /\ metrics (snd (get_history env skip limit w)) = metrics w
    /\ http_log (snd (get_history env skip limit w)) = http_log w
    /\ table (snd (health_check env w)) = table w
    /\ metrics (snd (health_check env w)) = metrics w.
Proof.
  intros env skip limit w.
  rewrite get_history_run, listRecent_run, health_check_run.
  repeat split; reflexivity.
Qed.

Lemma window_concat (skip a b : Z) (l : list models.WeatherRequest) :
  0 <= skip -> 0 <= a -> 0 <= b ->
  window skip a l ++ window (skip + a) b l = window skip (a + b) l.
Proof.
  intros Hs Ha Hb. unfold window.
  rewrite !Z2Nat.inj_add by lia.
  rewrite Nat.add_comm, <- skipn_skipn.
  generalize (skipn (Z.to_nat skip) l) as t.
  generalize (Z.to_nat a) as n. generalize (Z.to_nat b) as m.
  intros m n; induction n as [|n IH]; intros t; simpl; [reflexivity|].
  destruct t as [|x t]; simpl.
  - rewrite firstn_nil. destruct m; reflexivity.
  - f_equal. apply IH.
Qed.

(** Distinct timestamps leave the engine one order. *)
Lemma order_is_unique (env : Env) (s1 l1 s2 l2 : Z)
      (rows : list models.WeatherRequest) :
  NoDup (map models.timestamp rows) ->
  order_by_timestamp_desc env s1 l1 rows
  = order_by_timestamp_desc env s2 l2 rows.
Proof.
  intros Hts.
  destruct (@engine_orders_holds env s1 l1 rows) as [Hp Hs].
  destruct (@engine_orders_holds env s2 l2 rows) as [Hp' Hs'].
  apply sorted_perm_unique.
  - eapply perm_trans; [apply Permutation_sym, Hp | exact Hp'].
  - apply sorted_strongly, Hs.
  - apply sorted_strongly, Hs'.
  - eapply Permutation_NoDup; [|exact Hts]. apply Permutation_map, Hp.
Qed.

(** X11.  Pages join up: on one table with no two equal timestamps, the
    page of [a] rows at [skip] followed by the page of [b] rows at
    [skip + a] is the page of [a + b] rows at [skip], as long as [a + b]
    is below [2^63], where the joined query would overflow; nothing is lost
    or repeated between consecutive pages. *)
Theorem consecutive_pages_concatenate :
  forall (env : Env) (w1 w2 w3 : World) (skip a b : Z)
         (p1 p2 : list Item.t),
    NoDup (map models.timestamp (table w1)) ->
    table w2 = table w1 -> table w3 = table w1 ->
    0 <= skip -> 0 <= a -> 0 <= b -> a + b < int64_limit ->
    fst (get_history env skip a w1) = Ok p1 ->
    fst (get_history env (skip + a) b w2) = Ok p2 ->
    storage_fault env (steps w3) = false ->
    fst (get_history env skip (a + b) w3) = Ok (p1 ++ p2).
Proof.
  intros env w1 w2 w3 skip a b p1 p2 Hts H2 H3 Hs Ha Hb Hab.
  rewrite !get_history_run. simpl fst.
  destruct (fst (listRecent env skip a w1)) as [r1|e1] eqn:L1;
    [|discriminate].
  destruct (fst (listRecent env (skip + a) b w2)) as [r2|e2] eqn:L2;
    [|discriminate].
  intros [= <-] [= <-] Hf.
  assert (Hsa : 0 <= skip + a) by lia.
  destruct (@listRecent_ok_in_range _ _ _ _ _ Hs Ha L1) as (B1 & B2 & F1).
  destruct (@listRecent_ok_in_range _ _ _ _ _ Hsa Hb L2) as (B3 & B4 & F2).
  rewrite listRecent_in_range in L1, L2 by (assumption || lia).
  injection L1 as <-. injection L2 as <-.
  rewrite listRecent_in_range by (assumption || lia).
  rewrite H2, H3.
  rewrite (@order_is_unique env (skip + a) b skip a _ Hts).
  rewrite (@order_is_unique env skip (a + b) skip a _ Hts).
  rewrite <- map_app, window_concat by assumption. reflexivity.
Qed.

Lemma consecutive_pages_concatenate_witness :
  fst (get_history (sample_env (Fails Timeout) 5) 0 (1 + 2) sample_world)
  = Ok (map flatten [sample_row 3 300]
        ++ map flatten [sample_row 2 200; sample_row 1 100]).
Proof.
  apply (@consecutive_pages_concatenate
           (sample_env (Fails Timeout) 5)
           sample_world sample_world sample_world 0 1 2).
  - repeat constructor; simpl; intuition discriminate.
  - reflexivity.
  - reflexivity.
  - lia.
  - lia.
  - lia.
  - unfold int64_limit. lia.
  - reflexivity.
  - reflexivity.
  - reflexivity.
Defined.

(** X12.  For [skip] and [limit] from 0 up to, not including, [2^63]: a
    page that asks for at least as many rows as the table holds, from the
    start, returns every stored row exactly once; a page that starts at or
    after the end of the table, or asks for no row, is empty. *)
Theorem whole_table_and_empty_pages :
  forall (env : Env) (w : World) (skip limit : Z),
    0 <= skip < int64_limit -> 0 <= limit < int64_limit ->
    storage_fault env (steps w) = false ->
    exists page,
      fst (listRecent env skip limit w) = Ok page
      /\ (skip = 0 -> Z.of_nat (List.length (table w)) <= limit ->
          Permutation (table w) page)
      /\ (Z.of_nat (List.length (table w)) <= skip \/ limit = 0 ->
          page = []).
Proof.
  intros env w skip limit Hs Hl Hf.
  rewrite listRecent_in_range by assumption.
  destruct (@engine_orders_holds env skip limit (table w)) as [Hp _].
  eexists. split; [reflexivity|]. split.
  - intros -> Hall. unfold window. simpl skipn.
    rewrite firstn_all2; [exact Hp|].
    rewrite <- (Permutation_length Hp). lia.
  - intros Hout.
    apply length_zero_iff_nil. rewrite window_length.
    rewrite <- (Permutation_length Hp) in *. lia.
Qed.

Lemma whole_table_and_empty_pages_witness :
  exists page,
    fst (listRecent (sample_env (Fails Timeout) 5) 7 10 sample_world) = Ok page
    /\ (7 = 0 -> Z.of_nat (List.length (table sample_world)) <= 10 ->
        Permutation (table sample_world) page)
    /\ (Z.of_nat (List.length (table sample_world)) <= 7 \/ 10 = 0 ->
        page = []).
Proof.
  apply (@whole_table_and_empty_pages
           (sample_env (Fails Timeout) 5) sample_world 7 10).
  - unfold int64_limit. lia.
  - unfold int64_limit. lia.
  - reflexivity.
Defined.

Lemma bounds_mono (t t' : Z) (l : list models.WeatherRequest) :
  Forall (fun r => models.timestamp r <= t) l -> t <= t' ->
  Forall (fun r => models.timestamp r <= t') l.
Proof.
  intros H Hle. eapply Forall_impl; [|exact H]. simpl. intros r Hr. lia.
Qed.

(** X13.  Under a clock that never steps back, the handlers keep the
    stored timestamps behind the clock: if no stored timestamp is ahead of
    the clock before a call, none is after it, and the clock has not gone
    back. *)
Theorem handlers_keep_timestamps_behind_the_clock :
  forall (env : Env) (c : pystr) (skip limit : Z) (w : World),
    (forall k, 0 <= elapse env k) ->
    clock_bounds_table w ->
    (clock_bounds_table (snd (get_weather_by_city env c w))
     /\ now w <= now (snd (get_weather_by_city env c w)))
    /\ (clock_bounds_table (snd (get_history env skip limit w))
        /\ now w <= now (snd (get_history env skip limit w)))
    /\ (clock_bounds_table (snd (health_check env w))
        /\ now w <= now (snd (health_check env w))).
Proof.
  intros env c skip limit w Hclock Hb.
  pose proof (Hclock (steps w)) as H0.
  pose proof (Hclock (S (steps w))) as H1.
  pose proof (Hclock (S (S (steps w)))) as H2.
  unfold clock_bounds_table in *.
  split; [|split].
  - rewrite get_weather_by_city_run. cbv zeta.
    destruct (upstream_result _ _) as [wd|e0].
    + destruct (storage_fault env (S (steps w))).
      * simpl. split; [eapply bounds_mono; eauto|]; lia.
      * destruct (new_row env c wd _) as [row|e1] eqn:N.
        -- apply new_row_inv in N as (v & _ & ->).
           destruct (storage_fault env (S (S (steps w)))); simpl;
             (split; [|lia]); apply Forall_app; split;
             try (eapply bounds_mono; eauto; lia);
             repeat constructor; simpl; lia.
        -- simpl. split; [eapply bounds_mono; eauto|]; lia.
    + simpl. split; [eapply bounds_mono; eauto|]; lia.
  - rewrite get_history_run, listRecent_run. simpl.
    split; [eapply bounds_mono; eauto|]; lia.
  - rewrite health_check_run. simpl.
    split; [eapply bounds_mono; eauto|]; lia.
Qed.

Lemma handlers_keep_timestamps_behind_the_clock_witness :
  clock_bounds_table
    (snd (get_weather_by_city
            (sample_env (Responds 200 (Some (forecast (JInt 0) None))) 5)
            (utf8 "Paris") sample_world))
  /\ now sample_world
     <= now (snd (get_weather_by_city
                    (sample_env (Responds 200 (Some (forecast (JInt 0) None))) 5)
                    (utf8 "Paris") sample_world)).
Proof.
  apply (@handlers_keep_timestamps_behind_the_clock
           (sample_env (Responds 200 (Some (forecast (JInt 0) None))) 5)
           (utf8 "Paris") 0 10 sample_world).
  - intros k. simpl. lia.
  - repeat constructor; simpl; lia.
Defined.

(** X14.  End to end: when no stored timestamp is ahead of the clock, the
    clock does not step back during the GET and moves forward before the
    flush, a request that succeeds is what the history shows first right
    afterwards, under the key, the city and the description of the reply;
    its humidity is the Float column's reading of the reply's, so a reply's
    [50] comes back as [50.0]. *)
Theorem served_request_heads_the_history :
  forall (env : Env) (c : pystr) (w : World) (reply : Reply.t),
    clock_bounds_table w ->
    0 <= elapse env (steps w) ->
    0 < elapse env (S (steps w)) ->
    fst (get_weather_by_city env c w) = Ok reply ->
    storage_fault env (steps (snd (get_weather_by_city env c w))) = false ->
    exists item,
      fst (get_history env 0 1 (snd (get_weather_by_city env c w)))
      = Ok [item]
      /\ Item.id item = Reply.id reply
      /\ Item.city item = c
      /\ float_column env (Reply.humidity reply) = Ok (Item.humidity item)
      /\ Item.description item = Reply.description reply.
Proof.
  intros env c w reply Hb H0 H1.
  rewrite get_weather_by_city_run. cbv zeta.
  destruct (upstream_result _ _) as [wd|e0]; [|discriminate].
  destruct (storage_fault env (S (steps w))); [discriminate|].
  destruct (new_row env c wd _) as [row|e1] eqn:N; [|discriminate].
  destruct (storage_fault env (S (S (steps w)))); [discriminate|].
  simpl fst. simpl snd. intros [= <-] Hf.
  rewrite get_history_run, listRecent_in_range
    by (assumption || (unfold int64_limit; lia)).
  match goal with
  | |- context [order_by_timestamp_desc env 0 1 (table ?w')] =>
      change (table w') with (table w ++ [row])
  end.
  destruct (@engine_orders_holds env 0 1 (table w ++ [row])) as [Hp Hs].
  apply new_row_inv in N as (v & Hv & Hrow).
  apply column_values_inv in Hv as (_ & Hh & _).
  assert (Hnew : forall x, In x (table w) ->
                           models.timestamp x < models.timestamp row).
  { unfold clock_bounds_table in Hb. rewrite Forall_forall in Hb.
    intros x Hx. specialize (Hb x Hx). rewrite Hrow. simpl. lia. }
  destruct (newest_on_top (table w) row Hp (sorted_strongly Hs) Hnew)
    as [rest ->].
  eexists. split; [reflexivity|]. rewrite Hrow. simpl. auto.
Qed.

Lemma served_request_heads_the_history_witness :
  exists item,
    fst (get_history
           (sample_env (Responds 200 (Some (forecast (JInt 3) None))) 5) 0 1
           (snd (get_weather_by_city
                   (sample_env (Responds 200 (Some (forecast (JInt 3) None))) 5)
                   (utf8 " TOKYO") sample_world)))
    = Ok [item]
    /\ Item.id item = 4
    /\ Item.city item = utf8 " TOKYO"
    /\ float_column
         (sample_env (Responds 200 (Some (forecast (JInt 3) None))) 5)
         (JInt 50)
       = Ok (Item.humidity item)
    /\ Item.description item = utf8 "Пасмурно".
Proof.
  apply (@served_request_heads_the_history
           (sample_env (Responds 200 (Some (forecast (JInt 3) None))) 5)
           (utf8 " TOKYO") sample_world
           {| Reply.city := utf8 " TOKYO";
              Reply.temperature := JFloat 21.5;
              Reply.humidity := JInt 50;
              Reply.description := utf8 "Пасмурно";
              Reply.windspeed := JFloat 3.4;
              Reply.winddirection := JInt 180;
              Reply.weathercode := JInt 3;
              Reply.coordinates := {| lat := 35.6762; lon := 139.6503 |};
              Reply.provider := "openmeteo";
              Reply.timestamp := 1000015;
              Reply.id := 4 |}).
  - repeat constructor; simpl; lia.
  - simpl; lia.
  - simpl; lia.
  - reflexivity.
  - reflexivity.
Defined.

(** X15.  Keys stay unique: if the stored keys are pairwise distinct and
    the engine's next key is not among them, they are pairwise distinct
    after the request, whatever its outcome. *)
Theorem request_keeps_keys_unique :
  forall (env : Env) (c : pystr) (w : World),
    NoDup (map models.id (table w)) ->
    ~ In (next_id env (table w)) (map models.id (table w)) ->
    NoDup (map models.id (table (snd (get_weather_by_city env c w)))).
Proof.
  intros env c w Hnd Hfresh.
  assert (Hadd : NoDup (map models.id (table w) ++ [next_id env (table w)])).
  { apply NoDup_app; [exact Hnd | repeat constructor; simpl; tauto |].
    intros a Ha [<-|[]]. contradiction. }
  rewrite get_weather_by_city_run. cbv zeta.
  destruct (upstream_result _ _) as [wd|e0]; [|exact Hnd].
  destruct (storage_fault env (S (steps w))); [exact Hnd|].
  destruct (new_row env c wd _) as [row|e1] eqn:N; [|exact Hnd].
  apply new_row_inv in N as (v & _ & ->).
  destruct (storage_fault env (S (S (steps w)))); simpl;
    rewrite map_app; exact Hadd.
Qed.

Lemma request_keeps_keys_unique_witness :
  NoDup (map models.id
           (table (snd (get_weather_by_city
                          (sample_env
                             (Responds 200 (Some (forecast (JInt 0) None))) 5)
                          (utf8 "Paris") sample_world)))).
Proof.
  apply (@request_keeps_keys_unique
           (sample_env (Responds 200 (Some (forecast (JInt 0) None))) 5)
           (utf8 "Paris") sample_world).
  - repeat constructor; simpl; intuition discriminate.
  - simpl. intuition discriminate.
Defined.

(* ===================================================================== *)
(** ** Reference data and resolver: further properties *)
(* ===================================================================== *)

Lemma table_entries_resolve (ul : N -> pystr) :
  Forall (fun kv => get_city_coordinates ul (fst kv) = Ok (snd kv))
    CITY_COORDINATES.
Proof. repeat constructor. Qed.

(** X16.  Every city that [/available-cities] lists resolves to its own
    entry of the coordinate table, no listed city is listed twice, and the
    count is the length of the list. *)
Theorem listed_cities_resolve_to_their_entries :
  forall (ul : N -> pystr) (w : World),
    exists r,
      get_available_cities w = (Ok r, w)
      /\ Cities.count r = Z.of_nat (List.length (Cities.available_cities r))
      /\ NoDup (Cities.available_cities r)
      /\ Forall (fun city =>
                   exists p, In (city, p) CITY_COORDINATES
                             /\ get_city_coordinates ul city = Ok p)
           (Cities.available_cities r).
Proof.
  intros ul w. eexists. split; [reflexivity|]. split; [reflexivity|].
  split.
  - simpl. repeat constructor; simpl; intuition discriminate.
  - change (Forall (fun city =>
                      exists p, In (city, p) CITY_COORDINATES
                                /\ get_city_coordinates ul city = Ok p)
              (map fst CITY_COORDINATES)).
    pose proof (table_entries_resolve ul) as H.
    rewrite Forall_forall in *. intros city Hc.
    apply in_map_iff in Hc as ([k p] & <- & Hin).
    exists p. split; [exact Hin|]. exact (H _ Hin).
Qed.

(** X17.  Every entry that [/weather-codes] returns is what the client
    answers for that code: the code as an integer, and as the float equal
    to it, decodes to the entry's label.  [true] and [false] decode as 1
    and 0. *)
Theorem listed_codes_decode_to_their_labels :
  forall (w : World),
    exists codes,
      get_weather_codes w = (Ok codes, w)
      /\ Forall (fun kl =>
                   Py.get WEATHER_CODES (JInt (fst kl)) (utf8 "Неизвестно")
                   = Ok (snd kl)
                   /\ Py.get WEATHER_CODES
                        (JFloat (PrimFloat.of_uint63 (Uint63.of_Z (fst kl))))
                        (utf8 "Неизвестно")
                      = Ok (snd kl))
           codes
      /\ label_of (JBool true) = label_of (JInt 1)
      /\ label_of (JBool false) = label_of (JInt 0).
Proof.
  intros w. eexists. split; [reflexivity|].
  split; [|split; vm_compute; reflexivity].
  repeat (apply Forall_cons; [split; vm_compute; reflexivity|]).
  apply Forall_nil.
Qed.

(** X18.  Resolution sees neither surrounding white space nor case, for
    every input and not only for the keys: white space around a name does
    not change the result, and two names with the same lower-case form
    resolve alike. *)
Theorem resolution_ignores_space_and_case :
  forall (ul : N -> pystr) (s t ws1 ws2 : pystr),
    forallb is_space ws1 = true -> forallb is_space ws2 = true ->
    lower ul s = lower ul t ->
    get_city_coordinates ul (ws1 ++ s ++ ws2) = get_city_coordinates ul t.
Proof.
  intros ul s t ws1 ws2 H1 H2 Hl.
  rewrite !get_city_coordinates_unfold.
  rewrite !lower_app, (lower_spaces ul _ H1), (lower_spaces ul _ H2).
  rewrite strip_surrounded by assumption.
  rewrite Hl. reflexivity.
Qed.

Lemma resolution_ignores_space_and_case_witness :
  get_city_coordinates (fun c => [c]) (utf8 "  aTLANTIS ")
  = get_city_coordinates (fun c => [c]) (utf8 "Atlantis").
Proof.
  apply (@resolution_ignores_space_and_case
           (fun c => [c]) (utf8 "aTLANTIS") (utf8 "Atlantis")
           (utf8 "  ") (utf8 " "));
    reflexivity.
Defined.

(** X19.  The metrics stay in step: if every counted request so far has
    one latency observation, success and error together, the same holds
    after the weather handler ran, whatever its outcome. *)
Theorem weather_handler_keeps_metrics_balanced :
  forall (env : Env) (c : pystr) (w : World),
    metrics_balanced (metrics w) ->
    metrics_balanced (metrics (snd (get_weather_by_city env c w))).
Proof.
  intros env c w Hb. unfold metrics_balanced in *.
  destruct (get_weather_by_city_metrics env c w) as [latency ->].
  rewrite !counter_value_app, observations_app.
  destruct (is_ok (fst (get_weather_by_city env c w))).
  - change (counter_value "success"
              [CounterInc "success"; HistogramObserve latency]) with 1%nat.
    change (counter_value "error"
              [CounterInc "success"; HistogramObserve latency]) with 0%nat.
    change (observations [CounterInc "success"; HistogramObserve latency])
      with 1%nat.
    lia.
  - change (counter_value "success"
              [CounterInc "error"; HistogramObserve latency]) with 0%nat.
    change (counter_value "error"
              [CounterInc "error"; HistogramObserve latency]) with 1%nat.
    change (observations [CounterInc "error"; HistogramObserve latency])
      with 1%nat.
    lia.
Qed.

Lemma weather_handler_keeps_metrics_balanced_witness :
  metrics_balanced
    (metrics (snd (get_weather_by_city (sample_env (Fails Timeout) 5)
                     (utf8 "Paris") empty_world))).
Proof.
  apply (@weather_handler_keeps_metrics_balanced
           (sample_env (Fails Timeout) 5) (utf8 "Paris") empty_world).
  reflexivity.
Defined.

(** X20.  A body that is valid JSON but not an object, or whose
    [current_weather] is not an object, is not reported as malformed: the
    subscript raises [TypeError], so the fetch fails with InternalError and
    500 and the internal-error message. *)
Theorem ill_typed_body_is_an_internal_error :
  forall (env : Env) (city : pystr) (w : World) (s : Z) (data : json),
    http_get env (steps w)
      (forecast_request (resolved (unicode_lower env) city))
    = Responds s (Some data) ->
    error_status s = false ->
    is_object data = false
    \/ (exists fields current,
          data = JObj fields
          /\ Py.assoc (utf8 "current_weather") fields = Some current
          /\ is_object current = false) ->
    fst (get_weather_from_openmeteo env city w)
    = Raise (HTTPException 500 "Внутренняя ошибка: " (Some TypeError))
    /\ fails_with (fst (get_weather_from_openmeteo env city w))
         InternalError 500.
Proof.
  intros env city w s data Hget Hs Hcase.
  assert (R : read_forecast (resolved (unicode_lower env) city) data
              = Raise TypeError).
  { unfold read_forecast.
    destruct Hcase as [Hd|(fields & cur & -> & Hc & Ho)].
    - destruct data; try discriminate; reflexivity.
    - simpl. rewrite Hc. simpl.
      destruct cur; try discriminate; reflexivity. }
  rewrite get_weather_from_openmeteo_run, Hget. simpl. rewrite Hs, R.
  split; [reflexivity|]. do 2 eexists; split; reflexivity.
Qed.

Lemma ill_typed_body_is_an_internal_error_witness :
  fst (get_weather_from_openmeteo
         (sample_env
            (Responds 200 (Some (JObj [(utf8 "current_weather", JNull)]))) 5)
         (utf8 "Paris") empty_world)
  = Raise (HTTPException 500 "Внутренняя ошибка: " (Some TypeError))
  /\ fails_with
       (fst (get_weather_from_openmeteo
               (sample_env
                  (Responds 200
                     (Some (JObj [(utf8 "current_weather", JNull)]))) 5)
               (utf8 "Paris") empty_world))
       InternalError 500.
Proof.
  apply (@ill_typed_body_is_an_internal_error
           (sample_env
              (Responds 200 (Some (JObj [(utf8 "current_weather", JNull)]))) 5)
           (utf8 "Paris") empty_world 200
           (JObj [(utf8 "current_weather", JNull)])).
  - reflexivity.
  - reflexivity.
  - right. do 2 eexists. repeat split; reflexivity.
Defined.

(** X21.  The history endpoint has no error boundary: when the storage
    fails, the storage exception itself leaves the handler, not an HTTP
    exception, and neither metric is touched. *)
Theorem history_passes_storage_errors_on :
  forall (env : Env) (skip limit : Z) (w : World),
    storage_fault env (steps w) = true ->
    fst (get_history env skip limit w) = Raise SQLAlchemyError
    /\ error_kind SQLAlchemyError = None
    /\ metrics (snd (get_history env skip limit w)) = metrics w.
Proof.
  intros env skip limit w Hf.
  rewrite get_history_run, listRecent_run, Hf.
  repeat split; reflexivity.
Qed.

Lemma history_passes_storage_errors_on_witness :
  fst (get_history
         (set_storage_fault (sample_env (Fails Timeout) 5) (fun _ => true))
         0 10 sample_world)
  = Raise SQLAlchemyError.
Proof.
  apply (@history_passes_storage_errors_on
           (set_storage_fault (sample_env (Fails Timeout) 5) (fun _ => true))
           0 10 sample_world).
  reflexivity.
Defined.

(** X22.  Whatever city is asked for, the one GET of a request goes to the
    forecast URL with a 10-second timeout and asks for a pair that is a
    value of the coordinate table; the service never queries the provider
    for other coordinates. *)
Theorem every_request_asks_for_a_table_pair :
  forall (env : Env) (c : pystr) (w : World),
    exists p,
      In p (map snd CITY_COORDINATES)
      /\ http_log (snd (get_weather_by_city env c w))
         = http_log w ++ [forecast_request p]
      /\ url (forecast_request p) = OPENMETEO_URL
      /\ timeout (forecast_request p) = 10
      /\ option_map latitude (params (forecast_request p)) = Some (lat p)
      /\ option_map longitude (params (forecast_request p)) = Some (lon p).
Proof.
  intros env c w.
  exists (resolved (unicode_lower env) c). split.
  - unfold resolved.
    destruct (Py.assoc _ CITY_COORDINATES) as [p|] eqn:E.
    + apply assoc_In in E. apply (in_map snd) in E. exact E.
    + simpl. auto.
  - split; [|repeat split; reflexivity].
    rewrite get_weather_by_city_log, get_weather_from_openmeteo_run.
    reflexivity.
Qed.
